(** * Repo-analyzer: the rule-based diff classifier of [models/server.py]

    A shallow embedding of the [CodeAnalyzer] class and of the two Flask
    endpoints that call it, with the properties the specification states
    about them.

    Modelling conventions.
    - A Python [str] is a [string]; the characters are the ASCII ones, and
      a character of code 128 and above is caseless, not a word character
      and not white space.
    - A Python [int] is a [Z]; a [float] is a binary64 [float].
    - A [dict] is an association list in insertion order.
    - The [re] module is modelled for the pattern syntax the rule tables
      use: literals, escapes, [.], bracket classes, the greedy quantifiers
      on a single character, groups of literal alternatives, [$] and [\b],
      under the flags IGNORECASE and MULTILINE, with the backtracking order
      of the library. *)

From Stdlib Require Import String Ascii List ZArith NArith Bool Lia.
From Stdlib Require Import Floats Uint63 DecimalString.
Import ListNotations.

#[local] Set Warnings "-inexact-float,-register-all".
#[local] Open Scope string_scope.
#[local] Open Scope list_scope.

(* ================================================================= *)
(** ** Characters and the [str] methods the analyzer calls *)

Module PyStr.

Definition code (c : ascii) : N := N_of_ascii c.

Definition between (lo hi : N) (c : ascii) : bool :=
  (lo <=? code c)%N && (code c <=? hi)%N.

Definition is_upper (c : ascii) : bool := between 65 90 c.
Definition is_lower (c : ascii) : bool := between 97 122 c.
Definition is_digit (c : ascii) : bool := between 48 57 c.
Definition is_alpha (c : ascii) : bool := is_upper c || is_lower c.

(** [\w]: letters, digits and the underscore. *)
Definition is_word (c : ascii) : bool :=
  is_alpha c || is_digit c || (code c =? 95)%N.

(** [str.isspace] and [\s]: TAB, LF, VT, FF, CR, FS, GS, RS, US, SPACE. *)
Definition is_space (c : ascii) : bool :=
  between 9 13 c || between 28 31 c || (code c =? 32)%N.

Definition lower_char (c : ascii) : ascii :=
  if is_upper c then ascii_of_N (code c + 32) else c.

Definition upper_char (c : ascii) : ascii :=
  if is_lower c then ascii_of_N (code c - 32) else c.

Definition nl : ascii := ascii_of_N 10.
Definition dquote : ascii := ascii_of_N 34.

Definition is_nl (c : ascii) : bool := (code c =? 10)%N.

(** [s.lower()] *)
Fixpoint lower (s : string) : string :=
  match s with
  | EmptyString => EmptyString
  | String c s' => String (lower_char c) (lower s')
  end.

(** [s.title()]: a letter is put in upper case when the character before
    it is not a letter, and in lower case otherwise. *)
Fixpoint title_from (previous_is_cased : bool) (s : string) : string :=
  match s with
  | EmptyString => EmptyString
  | String c s' =>
      String (if previous_is_cased then lower_char c else upper_char c)
             (title_from (is_alpha c) s')
  end.

Definition title (s : string) : string := title_from false s.

(** [s.replace(a, b)] for single characters [a] and [b]. *)
Fixpoint replace_char (a b : ascii) (s : string) : string :=
  match s with
  | EmptyString => EmptyString
  | String c s' =>
      String (if Ascii.eqb c a then b else c) (replace_char a b s')
  end.

(** [s.split('\n')]: never empty; a trailing newline gives a last empty
    piece. *)
Fixpoint split_lines (s : string) : list string :=
  match s with
  | EmptyString => [EmptyString]
  | String c s' =>
      if is_nl c then EmptyString :: split_lines s'
      else match split_lines s' with
           | [] => [String c EmptyString]
           | l :: ls => String c l :: ls
           end
  end.

Fixpoint lstrip (s : string) : string :=
  match s with
  | EmptyString => EmptyString
  | String c s' => if is_space c then lstrip s' else s
  end.

Fixpoint rstrip (s : string) : string :=
  match s with
  | EmptyString => EmptyString
  | String c s' =>
      match rstrip s' with
      | EmptyString => if is_space c then EmptyString else String c EmptyString
      | r => String c r
      end
  end.

(** [s.strip()] *)
Definition strip (s : string) : string := rstrip (lstrip s).

(** Truth value of a [str]: non-empty. *)
Definition truthy (s : string) : bool :=
  match s with EmptyString => false | _ => true end.

(** [s.startswith((p1, p2, ...))] *)
Definition startswith (s : string) (prefixes : list string) : bool :=
  existsb (fun p => String.prefix p s) prefixes.

(** [needle in hay] *)
Fixpoint contains (needle hay : string) : bool :=
  String.prefix needle hay
  || match hay with
     | EmptyString => false
     | String _ hay' => contains needle hay'
     end.

(** [', '.join(parts)] and the like. *)
Fixpoint join (sep : string) (parts : list string) : string :=
  match parts with
  | [] => EmptyString
  | [p] => p
  | p :: rest => p ++ sep ++ join sep rest
  end.

(** [str(n)] for an [int], as an f-string renders it. *)
Definition of_int (n : Z) : string := NilZero.string_of_int (Z.to_int n).

End PyStr.

(* ================================================================= *)
(** ** The [re] module *)

Module Re.
Import PyStr.

(** One member of a bracket class, or a one-character pattern. *)
Inductive citem : Type :=
| CLit (c : ascii)      (* the character itself *)
| CWord                 (* \w *)
| CSpace                (* \s *)
| CDot.                 (* .  (anything but a newline) *)

(** A set of characters: the members, complemented when [negated]. *)
Record cset : Type := mk_cset { negated : bool; members : list citem }.

Inductive atom : Type :=
| One (cs : cset)                   (* one character of the set *)
| Star (cs : cset)                  (* cs*  greedy *)
| Opt (cs : cset)                   (* cs?  greedy *)
| Alt (alts : list (list cset))     (* (lit|lit|...) *)
| Eol                               (* $ *)
| WordB.                            (* \b *)

Definition regex : Type := list atom.

Record flags : Type := mk_flags { ignorecase : bool; multiline : bool }.

Definition NOFLAGS : flags := mk_flags false false.
Definition IGNORECASE : flags := mk_flags true false.
Definition IGNORECASE_MULTILINE : flags := mk_flags true true.

(* ----------------------------------------------------------------- *)
(** *** Compiling a pattern string *)

Definition single (i : citem) : cset := mk_cset false [i].

(** An escaped character inside or outside a class; [None] for the escapes
    the model does not cover. *)
Definition escape_item (e : ascii) : option citem :=
  if (code e =? 119)%N then Some CWord          (* \w *)
  else if (code e =? 115)%N then Some CSpace    (* \s *)
  else if is_word e then None
  else Some (CLit e).

(** The characters with a meaning of their own outside a class. *)
Definition is_special (c : ascii) : bool :=
  existsb (fun x => Ascii.eqb c x)
    ["\"; "."; "["; "]"; "("; ")"; "|"; "*"; "+"; "?"; "^"; "$"; "{"; "}"]%char.

Definition is_quantifier (c : ascii) : bool :=
  existsb (fun x => Ascii.eqb c x) ["*"; "+"; "?"; "{"]%char.

(** The members of a class, up to the closing bracket. *)
Fixpoint parse_class_items (s : string) : option (list citem * string) :=
  match s with
  | EmptyString => None
  | String c rest =>
      if Ascii.eqb c "]" then Some ([], rest)
      else if Ascii.eqb c "\" then
        match rest with
        | EmptyString => None
        | String e rest' =>
            match escape_item e, parse_class_items rest' with
            | Some i, Some (its, r) => Some (i :: its, r)
            | _, _ => None
            end
        end
      else if Ascii.eqb c "-" || Ascii.eqb c "[" then None
      else match parse_class_items rest with
           | Some (its, r) => Some (CLit c :: its, r)
           | None => None
           end
  end.

(** What follows an opening bracket. *)
Definition parse_class (s : string) : option (cset * string) :=
  let '(neg, body) :=
    match s with
    | String c rest => if Ascii.eqb c "^" then (true, rest) else (false, s)
    | EmptyString => (false, s)
    end in
  match parse_class_items body with
  | Some (i :: its, r) => Some (mk_cset neg (i :: its), r)
  | _ => None
  end.

(** What follows an opening parenthesis: literal alternatives. *)
Fixpoint parse_group (s : string) : option (list (list cset) * string) :=
  match s with
  | EmptyString => None
  | String c rest =>
      if Ascii.eqb c ")" then Some ([[]], rest)
      else if Ascii.eqb c "|" then
        match parse_group rest with
        | Some (alts, r) => Some ([] :: alts, r)
        | None => None
        end
      else if is_special c then None
      else match parse_group rest with
           | Some (a :: alts, r) => Some ((single (CLit c) :: a) :: alts, r)
           | _ => None
           end
  end.

Definition starts_with_quantifier (s : string) : bool :=
  match s with
  | String c _ => is_quantifier c
  | EmptyString => false
  end.

Fixpoint parse (fuel : nat) (s : string) : option regex :=
  match fuel with
  | O => None
  | S fuel' =>
      (* a one-character pattern [cs], then its quantifier if any *)
      let quantified (cs : cset) (rest : string) : option regex :=
        match rest with
        | String q rest' =>
            if is_quantifier q then
              if starts_with_quantifier rest' then None
              else match parse fuel' rest' with
                   | None => None
                   | Some r =>
                       if Ascii.eqb q "*" then Some (Star cs :: r)
                       else if Ascii.eqb q "+" then Some (One cs :: Star cs :: r)
                       else if Ascii.eqb q "?" then Some (Opt cs :: r)
                       else None
                   end
            else option_map (cons (One cs)) (parse fuel' rest)
        | EmptyString => Some [One cs]
        end in
      match s with
      | EmptyString => Some []
      | String c rest =>
          if Ascii.eqb c "\" then
            match rest with
            | EmptyString => None
            | String e rest' =>
                if (code e =? 98)%N then      (* \b *)
                  if starts_with_quantifier rest' then None
                  else option_map (cons WordB) (parse fuel' rest')
                else match escape_item e with
                     | Some i => quantified (single i) rest'
                     | None => None
                     end
            end
          else if Ascii.eqb c "." then quantified (single CDot) rest
          else if Ascii.eqb c "$" then
            if starts_with_quantifier rest then None
            else option_map (cons Eol) (parse fuel' rest)
          else if Ascii.eqb c "[" then
            match parse_class rest with
            | Some (cs, rest') => quantified cs rest'
            | None => None
            end
          else if Ascii.eqb c "(" then
            match parse_group rest with
            | Some (alts, rest') =>
                if starts_with_quantifier rest' then None
                else option_map (cons (Alt alts)) (parse fuel' rest')
            | None => None
            end
          else if is_special c then None
          else quantified (single (CLit c)) rest
      end
  end.

(** [re.compile(pattern)]; [None] stands for a pattern outside the
    syntax modelled. *)
Definition compile (pattern : string) : option regex :=
  parse (S (String.length pattern)) pattern.

(* ----------------------------------------------------------------- *)
(** *** Matching *)

Section Matching.

Variable fl : flags.

Definition citem_test (i : citem) (c : ascii) : bool :=
  match i with
  | CLit a =>
      if ignorecase fl then Ascii.eqb (lower_char a) (lower_char c)
      else Ascii.eqb a c
  | CWord => is_word c
  | CSpace => is_space c
  | CDot => negb (is_nl c)
  end.

Definition cset_test (cs : cset) (c : ascii) : bool :=
  xorb (negated cs) (existsb (fun i => citem_test i c) (members cs)).

(** [$]: at the end of the text or just before a final newline; under
    MULTILINE, before any newline. *)
Definition at_eol (s : string) : bool :=
  match s with
  | EmptyString => true
  | String c EmptyString => is_nl c
  | String c _ => multiline fl && is_nl c
  end.

Definition word_before (prev : option ascii) : bool :=
  match prev with Some c => is_word c | None => false end.

Definition word_after (s : string) : bool :=
  match s with String c _ => is_word c | EmptyString => false end.

(** [\b]: a word character on exactly one side. *)
Definition at_boundary (prev : option ascii) (s : string) : bool :=
  xorb (word_before prev) (word_after s).

(** A matcher is run at a position, given as the character before it and
    the text after it, and answers with the number of characters taken. *)
Definition matcher : Type := option ascii -> string -> option nat.

(** The longest run of [cs] first, then shorter ones, until [k] succeeds. *)
Fixpoint star (cs : cset) (k : matcher) (prev : option ascii) (s : string)
  : option nat :=
  match s with
  | String c s' =>
      if cset_test cs c then
        match star cs k (Some c) s' with
        | Some n => Some (S n)
        | None => k prev s
        end
      else k prev s
  | EmptyString => k prev s
  end.

(** The characters of one literal alternative, then [k]. *)
Fixpoint literal (alt : list cset) (k : matcher) (prev : option ascii)
  (s : string) : option nat :=
  match alt with
  | [] => k prev s
  | cs :: alt' =>
      match s with
      | String c s' =>
          if cset_test cs c then option_map S (literal alt' k (Some c) s')
          else None
      | EmptyString => None
      end
  end.

(** The alternatives in order; the first one after which [k] succeeds. *)
Fixpoint alternatives (alts : list (list cset)) (k : matcher)
  (prev : option ascii) (s : string) : option nat :=
  match alts with
  | [] => None
  | alt :: alts' =>
      match literal alt k prev s with
      | Some n => Some n
      | None => alternatives alts' k prev s
      end
  end.

Fixpoint run (r : regex) (k : matcher) : matcher :=
  match r with
  | [] => k
  | One cs :: r' =>
      fun prev s =>
        match s with
        | String c s' =>
            if cset_test cs c then option_map S (run r' k (Some c) s')
            else None
        | EmptyString => None
        end
  | Star cs :: r' => star cs (run r' k)
  | Opt cs :: r' =>
      fun prev s =>
        match s with
        | String c s' =>
            if cset_test cs c then
              match run r' k (Some c) s' with
              | Some n => Some (S n)
              | None => run r' k prev s
              end
            else run r' k prev s
        | EmptyString => run r' k prev s
        end
  | Alt alts :: r' => alternatives alts (run r' k)
  | Eol :: r' => fun prev s => if at_eol s then run r' k prev s else None
  | WordB :: r' =>
      fun prev s => if at_boundary prev s then run r' k prev s else None
  end.

(** A match of [r] at this position, as the number of characters it
    spans. With [must_advance] an empty match is refused, as the library
    does right after an empty match. *)
Definition match_here (must_advance : bool) (r : regex)
  (prev : option ascii) (s : string) : option nat :=
  run r
      (fun _ rest =>
         if must_advance && (String.length rest =? String.length s)%nat
         then None else Some O)
      prev s.

(** [re.search]: is there a match at some position, left to right. *)
Fixpoint search_from (r : regex) (prev : option ascii) (s : string) : bool :=
  match match_here false r prev s with
  | Some _ => true
  | None =>
      match s with
      | String c s' => search_from r (Some c) s'
      | EmptyString => false
      end
  end.

(** [len(re.findall(...))]: the matches found left to right, each search
    resuming where the match before ended. [skip] counts the characters
    of the current match still to step over. *)
Fixpoint count_from (r : regex) (skip : nat) (prev : option ascii)
  (s : string) : nat :=
  let step (k : nat) : nat :=
    match s with
    | String c s' => count_from r k (Some c) s'
    | EmptyString => O
    end in
  match skip with
  | S k => step k
  | O =>
      match match_here false r prev s with
      | Some (S k) => S (step k)
      | Some O =>
          (* an empty match: one more try here for a non-empty one *)
          match match_here true r prev s with
          | Some (S k) => S (S (step k))
          | _ => S (step O)
          end
      | None => step O
      end
  end.

End Matching.

(** [re.search(pattern, string, flags)] as a truth value. A pattern
    outside the modelled syntax matches nothing; no pattern of the rule
    tables is such (see [tables_compile] below). *)
Definition search (pattern s : string) (fl : flags) : bool :=
  match compile pattern with
  | Some r => search_from fl r None s
  | None => false
  end.

(** [len(re.findall(pattern, string, flags))] *)
Definition findall_len (pattern s : string) (fl : flags) : Z :=
  match compile pattern with
  | Some r => Z.of_nat (count_from fl r O None s)
  | None => 0%Z
  end.

End Re.

(* ================================================================= *)
(** ** A [dict] of scores, in insertion order *)

Module PyDict.

Definition dict : Type := list (string * Z).

(** [d[k] = v] *)
Fixpoint setitem (d : dict) (k : string) (v : Z) : dict :=
  match d with
  | [] => [(k, v)]
  | (k', v') :: d' =>
      if String.eqb k' k then (k', v) :: d'
      else (k', v') :: setitem d' k v
  end.

(** [d.get(k)] *)
Fixpoint get (d : dict) (k : string) : option Z :=
  match d with
  | [] => None
  | (k', v') :: d' => if String.eqb k' k then Some v' else get d' k
  end.

(** [d[k]]. The analyzer reads only keys it has written; 0 stands for the
    KeyError of an absent key. *)
Definition getitem (d : dict) (k : string) : Z :=
  match get d k with Some v => v | None => 0%Z end.

(** The scan of [max]: a later entry replaces the best one only when its
    value is strictly greater. *)
Fixpoint max_from (best : string * Z) (d : dict) : string * Z :=
  match d with
  | [] => best
  | kv :: d' =>
      if (snd kv >? snd best)%Z then max_from kv d' else max_from best d'
  end.

(** [max(d, key=d.get)] for a non-empty [d]; [None] for an empty one,
    which the analyzer tests for before the call. *)
Definition max_key (d : dict) : option string :=
  match d with
  | [] => None
  | kv :: d' => Some (fst (max_from kv d'))
  end.

End PyDict.

(* ================================================================= *)
(** ** [class CodeAnalyzer] *)

Module CodeAnalyzer.
Import PyStr Re.

#[local] Open Scope Z_scope.
#[local] Open Scope string_scope.

(** The fifth pattern of the python group, the only one that holds a
    double quote. *)
Definition main_guard : string :=
  "if\s+__name__\s*==\s*[" ++ String dquote "\']__main__["
  ++ String dquote "\']".

(** [self.language_patterns] *)
Definition language_patterns : list (string * list string) :=
  [("python",
    ["\.py$"; "import\s+\w+"; "def\s+\w+"; "class\s+\w+"; main_guard]);
   ("java",
    ["\.java$"; "public\s+class"; "import\s+[\w.]+;";
     "public\s+static\s+void\s+main"; "@\w+"]);
   ("javascript",
    ["\.js$"; "function\s+\w+"; "const\s+\w+"; "let\s+\w+"; "var\s+\w+";
     "=>"]);
   ("typescript",
    ["\.ts$"; "interface\s+\w+"; "type\s+\w+"; ":\s*\w+"; "export\s+"]);
   ("c++",
    ["\.(cpp|cc|cxx)$"; "#include\s*<"; "using\s+namespace"; "std::";
     "int\s+main"]);
   ("c",
    ["\.c$"; "#include\s*<"; "int\s+main"; "printf\s*\("; "malloc\s*\("]);
   ("html",
    ["\.html?$"; "<html>"; "<div"; "<span"; "<!DOCTYPE"]);
   ("css",
    ["\.css$"; "\{[^}]*\}"; "@media"; "#\w+"; "\.\w+"]);
   ("sql",
    ["\.sql$"; "SELECT\s+"; "INSERT\s+"; "UPDATE\s+"; "DELETE\s+";
     "CREATE\s+TABLE"]);
   ("shell",
    ["\.sh$"; "#!/bin/bash"; "#!/bin/sh"; "echo\s+"; "grep\s+"]);
   ("go",
    ["\.go$"; "package\s+\w+"; "import\s+\("; "func\s+\w+"; "go\s+\w+"]);
   ("rust",
    ["\.rs$"; "fn\s+\w+"; "let\s+\w+"; "struct\s+\w+"; "impl\s+"]);
   ("php",
    ["\.php$"; "<\?php"; "\$\w+"; "function\s+\w+"; "class\s+\w+"]);
   ("ruby",
    ["\.rb$"; "def\s+\w+"; "class\s+\w+"; "require\s+"; "puts\s+"]);
   ("swift",
    ["\.swift$"; "func\s+\w+"; "var\s+\w+"; "let\s+\w+"; "class\s+\w+"]);
   ("kotlin",
    ["\.kt$"; "fun\s+\w+"; "val\s+\w+"; "var\s+\w+"; "class\s+\w+"])].

(** [self.code_patterns] *)
Definition code_patterns : list (string * list string) :=
  [("api_endpoint",
    ["@app\.route"; "@RequestMapping"; "app\.(get|post|put|delete)";
     "router\.(get|post|put|delete)"]);
   ("database_query",
    ["SELECT\s+.*FROM"; "INSERT\s+INTO"; "UPDATE\s+.*SET"; "DELETE\s+FROM";
     "\.find\("; "\.save\("]);
   ("test_code",
    ["def\s+test_"; "@Test"; "it\(.*should"; "describe\("; "assert";
     "expect\("]);
   ("configuration",
    ["\.properties$"; "\.yaml$"; "\.yml$"; "\.json$"; "\.xml$"; "config"]);
   ("authentication",
    ["login"; "password"; "token"; "auth"; "jwt"; "oauth"]);
   ("error_handling",
    ["try\s*:"; "catch\s*\("; "except\s*:"; "throw\s+"; "raise\s+"]);
   ("logging",
    ["console\.log"; "print\("; "logger\."; "log\."; "System\.out"]);
   ("async_code",
    ["async\s+def"; "await\s+"; "Promise\s*<"; "CompletableFuture"]);
   ("ui_component",
    ["<div"; "<span"; "<button"; "class\s*="; "id\s*="; "render\s*\("]);
   ("data_processing",
    ["map\s*\("; "filter\s*\("; "reduce\s*\("; "for\s+.*in\s+";
     "\.stream\(\)"]);
   ("security",
    ["encrypt"; "decrypt"; "hash"; "ssl"; "https"; "certificate"]);
   ("performance",
    ["cache"; "optimize"; "performance"; "benchmark"; "profile"]);
   ("refactoring",
    ["TODO"; "FIXME"; "deprecated"; "@Deprecated"; "# TODO"])].

(** [self.complexity_indicators] *)
Definition complexity_indicators : list (string * list string) :=
  [("high",
    ["for\s+.*for\s+"; "while\s+.*while\s+"; "if\s+.*if\s+.*if\s+";
     "try\s+.*except\s+.*except\s+";
     "switch\s+.*case\s+.*case\s+.*case\s+"]);
   ("medium",
    ["for\s+.*in\s+"; "while\s+"; "if\s+.*else\s+"; "try\s+.*except\s+";
     "switch\s+.*case\s+"; "class\s+.*extends\s+"]);
   ("low",
    ["def\s+\w+"; "function\s+\w+"; "var\s+\w+"; "let\s+\w+";
     "const\s+\w+"])].

(** [functionality_keywords], local to [analyze_functionality] *)
Definition functionality_keywords : list (string * list string) :=
  [("authentication",
    ["login"; "password"; "auth"; "token"; "session"; "jwt"]);
   ("database",
    ["query"; "select"; "insert"; "update"; "delete"; "database"; "sql"]);
   ("api",
    ["endpoint"; "route"; "request"; "response"; "api"; "rest"]);
   ("ui",
    ["component"; "render"; "view"; "template"; "html"; "css"]);
   ("testing",
    ["test"; "assert"; "expect"; "mock"; "unittest"]);
   ("configuration",
    ["config"; "settings"; "properties"; "environment"]);
   ("data_processing",
    ["process"; "transform"; "parse"; "convert"; "filter"]);
   ("utility",
    ["helper"; "util"; "common"; "shared"; "library"]);
   ("business_logic",
    ["calculate"; "validate"; "process"; "handle"; "manage"]);
   ("integration",
    ["connect"; "integrate"; "sync"; "import"; "export"])].

(** [for k, v in table.items(): ...] with the loop variables [acc]. *)
Definition for_items {A B : Type} (table : list (string * B)) (init : A)
  (body : A -> string -> B -> A) : A :=
  fold_left (fun acc kv => body acc (fst kv) (snd kv)) table init.

(** [for x in xs: ...] with the loop variables [acc]. *)
Definition for_each {A B : Type} (xs : list B) (init : A)
  (body : A -> B -> A) : A :=
  fold_left body xs init.

(** The dictionary [language_scores] at the end of the loop of
    [detect_language]. *)
Definition language_scores (file_name code_content : string) : PyDict.dict :=
  let file_name_lower := lower file_name in
  for_items language_patterns ([] : PyDict.dict)
    (fun language_scores language patterns =>
       let score :=
         for_each patterns 0
           (fun score pattern =>
              let score :=
                if search pattern file_name_lower IGNORECASE
                then score + 3 else score in
              if search pattern code_content IGNORECASE_MULTILINE
              then score + 1 else score) in
       PyDict.setitem language_scores language score).

(** [detect_language] *)
Definition detect_language (file_name code_content : string) : string :=
  let language_scores := language_scores file_name code_content in
  match PyDict.max_key language_scores with
  | Some detected_language =>
      if PyDict.getitem language_scores detected_language >? 0
      then detected_language
      else "unknown"
  | None => "unknown"
  end.

(** The dictionary [code_type_scores] at the end of the loop of
    [detect_code_type]: a category enters it with a positive score
    only. *)
Definition code_type_scores (code_content : string) : PyDict.dict :=
  for_items code_patterns ([] : PyDict.dict)
    (fun code_type_scores code_type patterns =>
       let score :=
         for_each patterns 0
           (fun score pattern =>
              let matches :=
                findall_len pattern code_content IGNORECASE_MULTILINE in
              score + matches) in
       if score >? 0
       then PyDict.setitem code_type_scores code_type score
       else code_type_scores).

(** [detect_code_type] *)
Definition detect_code_type (code_content : string) : string :=
  match PyDict.max_key (code_type_scores code_content) with
  | Some code_type => code_type
  | None => "general_code"
  end.

(** [detect_patterns]; the inner loop stops at the first pattern found. *)
Definition detect_patterns (code_content : string) : list string :=
  for_items code_patterns []
    (fun detected_patterns pattern_name patterns =>
       if existsb
            (fun pattern => search pattern code_content IGNORECASE_MULTILINE)
            patterns
       then (detected_patterns ++ [pattern_name])%list
       else detected_patterns).

(** The comprehension of [assess_complexity]: the lines that are not
    blank and do not open with a comment marker. *)
Definition code_lines (code_content : string) : list string :=
  filter
    (fun line =>
       truthy (strip line)
       && negb (startswith (strip line) ["#"; "//"; "/*"; "*"]))
    (split_lines code_content).

(** The dictionary [complexity_scores] at the end of the loops of
    [assess_complexity]. *)
Definition complexity_scores (code_content : string) : PyDict.dict :=
  for_items complexity_indicators
    ([("high", 0); ("medium", 0); ("low", 0)] : PyDict.dict)
    (fun complexity_scores complexity_level patterns =>
       for_each patterns complexity_scores
         (fun complexity_scores pattern =>
            let matches :=
              findall_len pattern code_content IGNORECASE_MULTILINE in
            PyDict.setitem complexity_scores complexity_level
              (PyDict.getitem complexity_scores complexity_level
               + matches))).

(** [assess_complexity] *)
Definition assess_complexity (code_content : string) : string :=
  let complexity_scores := complexity_scores code_content in
  let weighted_score :=
    PyDict.getitem complexity_scores "high" * 3
    + PyDict.getitem complexity_scores "medium" * 2
    + PyDict.getitem complexity_scores "low" * 1 in
  let loc := Z.of_nat (List.length (code_lines code_content)) in
  if (weighted_score >? 10) || (loc >? 100) then "high"
  else if (weighted_score >? 5) || (loc >? 50) then "medium"
  else "low".

(** [analyze_functionality]; [language] is not read. *)
Definition analyze_functionality (code_content file_name language : string)
  : string :=
  let code_lower := lower code_content in
  let file_lower := lower file_name in
  let functionality_scores :=
    for_items functionality_keywords ([] : PyDict.dict)
      (fun functionality_scores func_type keywords =>
         let score :=
           for_each keywords 0
             (fun score keyword =>
                let score :=
                  score
                  + findall_len ("\b" ++ keyword ++ "\b") code_lower NOFLAGS in
                if contains keyword file_lower then score + 3 else score) in
         PyDict.setitem functionality_scores func_type score) in
  match PyDict.max_key functionality_scores with
  | Some primary_function =>
      if PyDict.getitem functionality_scores primary_function >? 0
      then title (replace_char "_" " " primary_function)
      else "General Purpose Code"
  | None => "General Purpose Code"
  end.

(** [generate_summary]; [code_type] is not read. *)
Definition generate_summary (language code_type functionality complexity
  : string) (patterns : list string) (lines_added lines_deleted : Z)
  : string :=
  let pattern_desc :=
    match patterns with
    | [] => EmptyString
    | _ =>
        let top_patterns := firstn 3 patterns in
        let pattern_desc := " with " ++ join ", " (firstn 2 top_patterns) in
        if (2 <? List.length top_patterns)%nat
        then pattern_desc ++ " and " ++ nth 2 top_patterns EmptyString
        else pattern_desc
    end in
  let change_desc :=
    if (lines_added >? 0) && (lines_deleted >? 0) then
      "Modified code (+" ++ of_int lines_added ++ "/-"
      ++ of_int lines_deleted ++ " lines)"
    else if lines_added >? 0 then
      "Added " ++ of_int lines_added ++ " lines of code"
    else if lines_deleted >? 0 then
      "Removed " ++ of_int lines_deleted ++ " lines of code"
    else "Code structure changes" in
  let summary :=
    change_desc ++ " in " ++ title language ++ " for " ++ lower functionality in
  let summary := if truthy pattern_desc then summary ++ pattern_desc
                 else summary in
  summary ++ ". Code complexity is " ++ complexity ++ ".".

(** [min(a, b)] on floats: the first argument unless the second is
    smaller. *)
Definition float_min (a b : float) : float :=
  if (b <? a)%float then b else a.

(** [len(xs)] where a float is wanted. *)
Definition float_of_len {A : Type} (xs : list A) : float :=
  PrimFloat.of_uint63 (Uint63.of_Z (Z.of_nat (List.length xs))).

(** The comprehension of [calculate_confidence]: the lines that are not
    blank. *)
Definition nonblank_lines (code_content : string) : list string :=
  filter (fun line => truthy (strip line)) (split_lines code_content).

(** [calculate_confidence] *)
Definition calculate_confidence (language code_type : string)
  (patterns : list string) (code_content : string) : float :=
  let confidence := 0.0%float in
  let confidence :=
    if negb (language =? "unknown")%string then (confidence + 0.3)%float
    else confidence in
  let confidence :=
    if negb (code_type =? "general_code")%string
    then (confidence + 0.2)%float else confidence in
  let confidence :=
    match patterns with
    | [] => confidence
    | _ => (confidence + float_min 0.3 (float_of_len patterns * 0.1))%float
    end in
  let code_lines := Z.of_nat (List.length (nonblank_lines code_content)) in
  let confidence :=
    if code_lines >? 5 then (confidence + 0.1)%float else confidence in
  let confidence :=
    if code_lines >? 20 then (confidence + 0.1)%float else confidence in
  float_min 1.0 confidence.

(** The dictionary [analyze_code_diff] returns. *)
Record AnalysisResult : Type := mk_result {
  language : string;
  codeType : string;
  functionality : string;
  complexity : string;
  patterns : list string;
  confidence : float;
  summary : string
}.

(** [analyze_code_diff]. The function never reads [full_diff], so the
    type of the argument is left open. *)
Definition analyze_code_diff {D : Type} (file_name added_code deleted_code
  : string) (full_diff : D) (lines_added lines_deleted : Z)
  : AnalysisResult :=
  let combined_code := added_code ++ String nl EmptyString ++ deleted_code in
  let language := detect_language file_name combined_code in
  let code_type := detect_code_type combined_code in
  let patterns := detect_patterns combined_code in
  let complexity := assess_complexity combined_code in
  let functionality :=
    analyze_functionality combined_code file_name language in
  let confidence :=
    calculate_confidence language code_type patterns combined_code in
  let summary :=
    generate_summary language code_type functionality complexity patterns
      lines_added lines_deleted in
  mk_result language code_type functionality complexity patterns confidence
    summary.

End CodeAnalyzer.

(* ================================================================= *)
(** ** The Flask endpoints *)

Module Server.
Import PyStr CodeAnalyzer.

#[local] Open Scope Z_scope.
#[local] Open Scope string_scope.

(** A parsed JSON body. Numbers are the integers; booleans and numbers
    with a fraction are outside the model. An object binds each key
    once. *)
Inductive json : Type :=
| JNull
| JInt (n : Z)
| JStr (s : string)
| JArr (items : list json)
| JObj (fields : list (string * json)).

(** The exceptions an ill-typed value raises. *)
Inductive exn : Type :=
| TypeError
| AttributeError.

(** Truth value of a parsed body, as [not x] reads it. *)
Definition truthy_json (v : json) : bool :=
  match v with
  | JNull => false
  | JInt n => negb (n =? 0)%Z
  | JStr s => truthy s
  | JArr items => match items with [] => false | _ => true end
  | JObj fields => match fields with [] => false | _ => true end
  end.

(** [d.get(key, default)] on the fields of an object. *)
Fixpoint get (fields : list (string * json)) (key : string) (default : json)
  : json :=
  match fields with
  | [] => default
  | (k, v) :: rest => if (k =? key)%string then v else get rest key default
  end.

(** [key in d] on the fields of an object. *)
Definition has_key (fields : list (string * json)) (key : string) : bool :=
  existsb (fun kv => (fst kv =? key)%string) fields.

(** [analyzer.analyze_code_diff(...)] on the values an endpoint took from
    the body, whatever their types. The first ill-typed use raises:
    [added_code + newline + deleted_code] wants two strings,
    [file_name.lower()] a string, and [lines_added > 0],
    [lines_deleted > 0] numbers. *)
Definition call_analyze_code_diff (file_name added_code deleted_code
  full_diff lines_added lines_deleted : json) : exn + AnalysisResult :=
  match added_code, deleted_code with
  | JStr added, JStr deleted =>
      match file_name with
      | JStr name =>
          match lines_added, lines_deleted with
          | JInt la, JInt ld =>
              inr (analyze_code_diff name added deleted full_diff la ld)
          | _, _ => inl TypeError
          end
      | _ => inl AttributeError
      end
  | _, _ => inl TypeError
  end.

(** One element of the [results] list of the batch endpoint: the result
    dictionary with [fileName] added, or [fileName] and [error]. *)
Inductive batch_result : Type :=
| FileResult (fileName : json) (result : AnalysisResult)
| FileError (fileName : json) (error : exn).

(** What [jsonify] is given. *)
Inductive body : Type :=
| ErrorMessage (error : string)
| InternalServerError (message : exn)
| Analysis (result : AnalysisResult)
| BatchResults (results : list batch_result).

Record response : Type := mk_response { status : Z; payload : body }.

(** The six [data.get(...)] of an endpoint, then the call. *)
Definition analyze_fields (fields : list (string * json))
  : exn + AnalysisResult :=
  call_analyze_code_diff
    (get fields "fileName" (JStr EmptyString))
    (get fields "addedCode" (JStr EmptyString))
    (get fields "deletedCode" (JStr EmptyString))
    (get fields "fullDiff" (JStr EmptyString))
    (get fields "linesAdded" (JInt 0))
    (get fields "linesDeleted" (JInt 0)).

(** [analyze_code], on the body [request.get_json()] returned. *)
Definition analyze_code (data : json) : response :=
  if negb (truthy_json data) then
    mk_response 400 (ErrorMessage "No JSON data provided")
  else
    match data with
    | JObj fields =>
        let file_name := get fields "fileName" (JStr EmptyString) in
        let added_code := get fields "addedCode" (JStr EmptyString) in
        let deleted_code := get fields "deletedCode" (JStr EmptyString) in
        let full_diff := get fields "fullDiff" (JStr EmptyString) in
        if negb (truthy_json file_name) then
          mk_response 400 (ErrorMessage "fileName is required")
        else if negb (truthy_json added_code)
                && negb (truthy_json deleted_code)
                && negb (truthy_json full_diff) then
          mk_response 400
            (ErrorMessage
               "At least one of addedCode, deletedCode, or fullDiff is required")
        else
          match analyze_fields fields with
          | inr result => mk_response 200 (Analysis result)
          | inl e => mk_response 500 (InternalServerError e)
          end
    | _ =>
        (* [data.get] on a value that is not an object *)
        mk_response 500 (InternalServerError AttributeError)
    end.

(** The loop of [analyze_batch]. A fault of the analysis is caught and
    recorded for its file. On an item that is not an object [file_data.get]
    raises in the handler as well, and the exception leaves the loop. *)
Fixpoint batch_loop (results : list batch_result) (files : list json)
  : exn + list batch_result :=
  match files with
  | [] => inr results
  | file_data :: rest =>
      match file_data with
      | JObj fields =>
          let fileName := get fields "fileName" (JStr EmptyString) in
          match analyze_fields fields with
          | inr result =>
              batch_loop (results ++ [FileResult fileName result])%list rest
          | inl e =>
              batch_loop (results ++ [FileError fileName e])%list rest
          end
      | _ => inl AttributeError
      end
  end.

(** [analyze_batch], on the body [request.get_json()] returned. *)
Definition analyze_batch (data : json) : response :=
  let files_required :=
    mk_response 400 (ErrorMessage "files array is required") in
  if negb (truthy_json data) then files_required
  else
    match data with
    | JObj fields =>
        if negb (has_key fields "files") then files_required
        else
          match get fields "files" JNull with
          | JArr files =>
              match batch_loop [] files with
              | inr results => mk_response 200 (BatchResults results)
              | inl e => mk_response 500 (InternalServerError e)
              end
          | _ => mk_response 400 (ErrorMessage "files must be an array")
          end
    | JStr s =>
        (* a substring test, then [data['files']] on a string *)
        if contains "files" s
        then mk_response 500 (InternalServerError TypeError)
        else files_required
    | JArr items =>
        (* a membership test, then [data['files']] on a list *)
        if existsb
             (fun v => match v with
                       | JStr s => (s =? "files")%string
                       | _ => false
                       end) items
        then mk_response 500 (InternalServerError TypeError)
        else files_required
    | _ =>
        (* ['files' not in data] on a number *)
        mk_response 500 (InternalServerError TypeError)
    end.

End Server.

(* ================================================================= *)
(** ** The statements of the specification *)

Module Spec.
Import PyStr Re CodeAnalyzer Server.

#[local] Open Scope Z_scope.

(** How many elements of [xs] satisfy [p]. *)
Definition count_if {A : Type} (p : A -> bool) (xs : list A) : Z :=
  Z.of_nat (List.length (filter p xs)).

(** The sum of [f] over [xs]. *)
Definition total {A : Type} (f : A -> Z) (xs : list A) : Z :=
  fold_right (fun x acc => f x + acc) 0 xs.

(** A pattern matches a file name: a search that ignores case. *)
Definition matches_name (file_name pattern : string) : bool :=
  search pattern file_name IGNORECASE.

(** A pattern matches somewhere in a text: a search that ignores case and
    takes each line end as an end. *)
Definition matches_text (text pattern : string) : bool :=
  search pattern text IGNORECASE_MULTILINE.

(** The non-overlapping matches of a pattern in a text. *)
Definition occurrences (text pattern : string) : Z :=
  findall_len pattern text IGNORECASE_MULTILINE.

(** The language score of one group: 3 for each pattern matching the file
    name, 1 for each pattern matching in the text. *)
Definition language_score (file_name text : string)
  (patterns : list string) : Z :=
  3 * count_if (matches_name file_name) patterns
  + count_if (matches_text text) patterns.

(** The code-type score of one group: the occurrences of its patterns. *)
Definition code_type_score (text : string) (patterns : list string) : Z :=
  total (occurrences text) patterns.

(** A rule table with each group replaced by its score. *)
Definition scored (score : list string -> Z)
  (table : list (string * list string)) : list (string * Z) :=
  map (fun kv => (fst kv, score (snd kv))) table.

(** [k] is the first category of maximal score: every category before it
    scores strictly less, every category after it scores no more. *)
Definition first_maximal (scores : list (string * Z)) (k : string) : Prop :=
  exists before v after,
    scores = (before ++ (k, v) :: after)%list
    /\ (forall kv, In kv before -> snd kv < v)
    /\ (forall kv, In kv after -> snd kv <= v).

(** The greatest score of a table of scores that are not negative. *)
Definition maximum (scores : list (string * Z)) : Z :=
  fold_right (fun kv m => Z.max (snd kv) m) 0 scores.

(** The names of the categories of a rule table. *)
Definition keys {B : Type} (table : list (string * B)) : list string :=
  map fst table.

(** The patterns a table lists under the key [k]. *)
Definition listed (table : list (string * list string)) (k : string)
  : list string :=
  concat (map snd (filter (fun kv => (fst kv =? k)%string) table)).

(** The patterns of one tier of [complexity_indicators]. *)
Definition tier_patterns (tier : string) : list string :=
  match find (fun kv => (fst kv =? tier)%string) complexity_indicators with
  | Some kv => snd kv
  | None => []
  end.

(** The occurrences of the patterns of one tier. *)
Definition tier_count (text tier : string) : Z :=
  total (occurrences text) (tier_patterns tier).

Definition weighted_score (text : string) : Z :=
  tier_count text "high" * 3 + tier_count text "medium" * 2
  + tier_count text "low" * 1.

(** A code line: its trimmed form is not empty and opens with none of the
    comment markers. *)
Definition is_code_line (line : string) : bool :=
  negb (strip line =? EmptyString)%string
  && negb (existsb (fun marker => String.prefix marker (strip line))
             ["#"; "//"; "/*"; "*"]%string).

Definition code_line_count (text : string) : Z :=
  count_if is_code_line (split_lines text).

(** A confidence within the unit interval. *)
Definition in_unit_interval (c : float) : Prop :=
  (0 <=? c)%float = true /\ (c <=? 1)%float = true.

(** The change-size clause of the summary, by the four cases. *)
Definition change_clause (lines_added lines_deleted : Z) : string :=
  if (0 <? lines_added) && (0 <? lines_deleted) then
    "Modified code (+" ++ of_int lines_added ++ "/-" ++ of_int lines_deleted
    ++ " lines)"
  else if (0 <? lines_added) && negb (0 <? lines_deleted) then
    "Added " ++ of_int lines_added ++ " lines of code"
  else if negb (0 <? lines_added) && (0 <? lines_deleted) then
    "Removed " ++ of_int lines_deleted ++ " lines of code"
  else "Code structure changes".

(** The text fields of a request that are not empty, among [addedCode],
    [deletedCode] and [fullDiff]. *)
Definition nonempty_bodies (fields : list (string * json)) : Z :=
  count_if
    (fun key => truthy_json (get fields key (JStr EmptyString)))
    ["addedCode"; "deletedCode"; "fullDiff"]%string.

(** What the batch endpoint answers for one file: the result with the file
    name, or the file name with the fault of the analysis. *)
Definition file_outcome (fields : list (string * json)) : batch_result :=
  let fileName := get fields "fileName" (JStr EmptyString) in
  match analyze_fields fields with
  | inr result => FileResult fileName result
  | inl e => FileError fileName e
  end.

(** The result every fallback gives. *)
Definition is_fallback_result (r : AnalysisResult) : Prop :=
  language r = "unknown"%string
  /\ codeType r = "general_code"%string
  /\ functionality r = "General Purpose Code"%string
  /\ complexity r = "low"%string
  /\ patterns r = []
  /\ confidence r = 0%float.

(** Text of several lines. *)
Definition lines (ls : list string) : string :=
  join (String nl EmptyString) ls.

(** Three queries and one route. *)
Definition three_selects_one_route : string :=
  lines ["SELECT id FROM users";
         "SELECT name FROM teams";
         "SELECT total FROM orders";
         "@app.route('/orders')"]%string.

(** A long Python body that touches many pattern groups. *)
Definition long_python_body : string :=
  lines ["import os";
         "import json";
         EmptyString;
         "class OrderService:";
         "    def __init__(self, db):";
         "        self.db = db";
         EmptyString;
         "    @app.route('/orders')";
         "    def list_orders(self):";
         "        rows = self.db.run('SELECT id FROM orders')";
         "        return rows";
         EmptyString;
         "    def load(self, path):";
         "        try:";
         "            data = open(path).read()";
         "        except:";
         "            raise ValueError(path)";
         "        return json.loads(data)";
         EmptyString;
         "    def total(self, rows):";
         "        amount = 0";
         "        for row in rows:";
         "            amount = amount + row";
         "        print(amount)";
         "        return amount";
         EmptyString;
         "def test_total():";
         "    service = OrderService(None)";
         "    assert service.total([1, 2]) == 3";
         EmptyString;
         "if __name__ == '__main__':";
         "    test_total()"]%string.

End Spec.

(* ================================================================= *)
(** ** Facts about characters and matching *)

Module ReFacts.
Import PyStr Re.

Ltac by_cases_on_char c :=
  destruct c as [[] [] [] [] [] [] [] []]; reflexivity.

Lemma lower_char_idempotent (c : ascii) :
  lower_char (lower_char c) = lower_char c.
Proof. by_cases_on_char c. Qed.

Lemma is_word_lower_char (c : ascii) : is_word (lower_char c) = is_word c.
Proof. by_cases_on_char c. Qed.

Lemma is_space_lower_char (c : ascii) : is_space (lower_char c) = is_space c.
Proof. by_cases_on_char c. Qed.

Lemma is_nl_lower_char (c : ascii) : is_nl (lower_char c) = is_nl c.
Proof. by_cases_on_char c. Qed.

Lemma length_lower (s : string) : String.length (lower s) = String.length s.
Proof. induction s as [|c s IH]; simpl; congruence. Qed.

Section IgnoreCase.

Variable fl : flags.
Hypothesis ignores_case : ignorecase fl = true.

Lemma citem_test_lower (i : citem) (c : ascii) :
  citem_test fl i (lower_char c) = citem_test fl i c.
Proof.
  destruct i; simpl.
  - rewrite ignores_case, lower_char_idempotent. reflexivity.
  - apply is_word_lower_char.
  - apply is_space_lower_char.
  - now rewrite is_nl_lower_char.
Qed.

Lemma cset_test_lower (cs : cset) (c : ascii) :
  cset_test fl cs (lower_char c) = cset_test fl cs c.
Proof.
  unfold cset_test. f_equal.
  induction (members cs) as [|i rest IH]; simpl; [reflexivity|].
  now rewrite citem_test_lower, IH.
Qed.

Lemma at_eol_lower (s : string) : at_eol fl (lower s) = at_eol fl s.
Proof.
  destruct s as [|c [|d s]]; simpl; try reflexivity;
    now rewrite is_nl_lower_char.
Qed.

Lemma at_boundary_lower (prev : option ascii) (s : string) :
  at_boundary (option_map lower_char prev) (lower s) = at_boundary prev s.
Proof.
  unfold at_boundary. f_equal.
  - destruct prev; simpl; [apply is_word_lower_char | reflexivity].
  - destruct s; simpl; [reflexivity | apply is_word_lower_char].
Qed.

(** [k'] on the text in lower case answers as [k] on the text itself. *)
Definition lowered (k' k : matcher) : Prop :=
  forall prev s, k' (option_map lower_char prev) (lower s) = k prev s.

Lemma star_lowered (cs : cset) (k' k : matcher) :
  lowered k' k -> lowered (star fl cs k') (star fl cs k).
Proof.
  intros Hk prev s. revert prev.
  induction s as [|c s IH]; intros prev.
  - exact (Hk prev EmptyString).
  - cbn [star lower]. rewrite cset_test_lower.
    destruct (cset_test fl cs c).
    + specialize (IH (Some c)). cbn [option_map] in IH. rewrite IH.
      destruct (star fl cs k (Some c) s); [reflexivity|].
      exact (Hk prev (String c s)).
    + exact (Hk prev (String c s)).
Qed.

Lemma literal_lowered (alt : list cset) (k' k : matcher) :
  lowered k' k -> lowered (literal fl alt k') (literal fl alt k).
Proof.
  intros Hk. induction alt as [|cs alt IH]; intros prev s.
  - exact (Hk prev s).
  - destruct s as [|c s]; cbn [literal lower]; [reflexivity|].
    rewrite cset_test_lower.
    destruct (cset_test fl cs c); [|reflexivity].
    specialize (IH (Some c) s). cbn [option_map] in IH. now rewrite IH.
Qed.

Lemma alternatives_lowered (alts : list (list cset)) (k' k : matcher) :
  lowered k' k -> lowered (alternatives fl alts k') (alternatives fl alts k).
Proof.
  intros Hk. induction alts as [|alt alts IH]; intros prev s;
    cbn [alternatives].
  - reflexivity.
  - rewrite (literal_lowered alt k' k Hk prev s).
    destruct (literal fl alt k prev s); [reflexivity | apply IH].
Qed.

Lemma run_lowered (r : regex) (k' k : matcher) :
  lowered k' k -> lowered (run fl r k') (run fl r k).
Proof.
  intros Hk. induction r as [|a r IH]; [exact Hk|].
  destruct a as [cs|cs|cs|alts| |]; cbn [run].
  - intros prev [|c s]; cbn [lower]; [reflexivity|].
    rewrite cset_test_lower.
    destruct (cset_test fl cs c); [|reflexivity].
    specialize (IH (Some c) s). cbn [option_map] in IH. now rewrite IH.
  - now apply star_lowered.
  - intros prev [|c s]; cbn [lower].
    + exact (IH prev EmptyString).
    + rewrite cset_test_lower.
      destruct (cset_test fl cs c).
      * pose proof (IH (Some c) s) as E. cbn [option_map] in E. rewrite E.
        destruct (run fl r k (Some c) s); [reflexivity|].
        exact (IH prev (String c s)).
      * exact (IH prev (String c s)).
  - now apply alternatives_lowered.
  - intros prev s. rewrite at_eol_lower.
    destruct (at_eol fl s); [apply IH | reflexivity].
  - intros prev s. rewrite at_boundary_lower.
    destruct (at_boundary prev s); [apply IH | reflexivity].
Qed.

Lemma match_here_lower (must_advance : bool) (r : regex)
  (prev : option ascii) (s : string) :
  match_here fl must_advance r (option_map lower_char prev) (lower s)
  = match_here fl must_advance r prev s.
Proof.
  unfold match_here. apply run_lowered.
  intros _ rest. now rewrite !length_lower.
Qed.

Lemma search_from_lower (r : regex) (prev : option ascii) (s : string) :
  search_from fl r (option_map lower_char prev) (lower s)
  = search_from fl r prev s.
Proof.
  revert prev. induction s as [|c s IH]; intros prev.
  - cbn [search_from lower].
    now rewrite <- (match_here_lower false r prev EmptyString).
  - cbn [search_from lower].
    change (String (lower_char c) (lower s)) with (lower (String c s)).
    rewrite match_here_lower.
    destruct (match_here fl false r prev (String c s)); [reflexivity|].
    exact (IH (Some c)).
Qed.

End IgnoreCase.

(** A search that ignores case does not see the case of the text. *)
Lemma search_lower (pattern s : string) (fl : flags) :
  ignorecase fl = true -> search pattern (lower s) fl = search pattern s fl.
Proof.
  intros H. unfold search.
  destruct (compile pattern) as [r|]; [|reflexivity].
  exact (search_from_lower fl H r None s).
Qed.

End ReFacts.

(* ================================================================= *)
(** ** Facts about score dictionaries and the loops that fill them *)

Module DictFacts.
Import PyDict CodeAnalyzer Spec.

#[local] Open Scope Z_scope.

Lemma get_setitem_same (d : dict) (k : string) (v : Z) :
  get (setitem d k v) k = Some v.
Proof.
  induction d as [|[k' v'] d IH]; simpl.
  - now rewrite String.eqb_refl.
  - destruct (String.eqb k' k) eqn:E; simpl; rewrite E; [reflexivity | exact IH].
Qed.

Lemma get_setitem_other (d : dict) (k k' : string) (v : Z) :
  k <> k' -> get (setitem d k v) k' = get d k'.
Proof.
  intros Hne. induction d as [|[k0 v0] d IH]; simpl.
  - destruct (String.eqb k k') eqn:E; [|reflexivity].
    apply String.eqb_eq in E. contradiction.
  - destruct (String.eqb k0 k) eqn:E; simpl.
    + apply String.eqb_eq in E. subst k0.
      destruct (String.eqb k k') eqn:E'; [|reflexivity].
      apply String.eqb_eq in E'. contradiction.
    + now rewrite IH.
Qed.

Lemma getitem_setitem_same (d : dict) (k : string) (v : Z) :
  getitem (setitem d k v) k = v.
Proof. unfold getitem. now rewrite get_setitem_same. Qed.

Lemma getitem_setitem_other (d : dict) (k k' : string) (v : Z) :
  k <> k' -> getitem (setitem d k v) k' = getitem d k'.
Proof. intros H. unfold getitem. now rewrite get_setitem_other. Qed.

Lemma setitem_fresh (d : dict) (k : string) (v : Z) :
  ~ In k (keys d) -> setitem d k v = (d ++ [(k, v)])%list.
Proof.
  induction d as [|[k' v'] d IH]; simpl; intros Hk; [reflexivity|].
  destruct (String.eqb k' k) eqn:E.
  - apply String.eqb_eq in E. tauto.
  - rewrite IH; tauto.
Qed.

Lemma get_in (d : dict) (k : string) (v : Z) :
  NoDup (keys d) -> In (k, v) d -> get d k = Some v.
Proof.
  induction d as [|[k' v'] d IH]; simpl; intros Hnd Hin; [contradiction|].
  inversion Hnd as [|? ? Hk' Hd]; subst.
  destruct Hin as [Heq|Hin].
  - inversion Heq; subst. now rewrite String.eqb_refl.
  - destruct (String.eqb k' k) eqn:E.
    + apply String.eqb_eq in E. subst k'.
      exfalso. apply Hk'. apply (in_map fst) in Hin. exact Hin.
    + now apply IH.
Qed.

(** The scan of [max] returns an entry with strictly smaller ones before
    it and none greater after it. *)
Lemma max_from_spec (d : dict) :
  forall (best : string * Z) (pre mid : dict),
    (forall kv, In kv pre -> snd kv < snd best) ->
    (forall kv, In kv mid -> snd kv <= snd best) ->
    exists before after,
      (pre ++ best :: mid ++ d)%list
      = (before ++ max_from best d :: after)%list
      /\ (forall kv, In kv before -> snd kv < snd (max_from best d))
      /\ (forall kv, In kv after -> snd kv <= snd (max_from best d)).
Proof.
  induction d as [|kv d IH]; intros best pre mid Hpre Hmid; simpl.
  - exists pre, mid. rewrite app_nil_r. auto.
  - destruct (snd kv >? snd best) eqn:E.
    + apply Z.gtb_lt in E.
      destruct (IH kv (pre ++ best :: mid)%list [])
        as (before & after & Heq & Hb & Ha).
      * intros x Hx. apply in_app_or in Hx.
        destruct Hx as [Hx|[Hx|Hx]].
        -- specialize (Hpre x Hx). lia.
        -- subst x. lia.
        -- specialize (Hmid x Hx). lia.
      * intros x [].
      * exists before, after. split; [|auto].
        rewrite <- Heq. rewrite <- app_assoc. reflexivity.
    + assert (Hle : snd kv <= snd best).
      { destruct (Z.gtb_spec (snd kv) (snd best)); [discriminate | lia]. }
      destruct (IH best pre (mid ++ [kv])%list)
        as (before & after & Heq & Hb & Ha).
      * exact Hpre.
      * intros x Hx. apply in_app_or in Hx.
        destruct Hx as [Hx|[Hx|[]]]; [auto | subst x; exact Hle].
      * exists before, after. split; [|auto].
        rewrite <- Heq. rewrite <- app_assoc. reflexivity.
Qed.

(** [max(d, key=d.get)] is the first key of maximal value, and [d[k]] is
    that value. *)
Lemma max_key_spec (d : dict) (k : string) :
  NoDup (keys d) ->
  max_key d = Some k ->
  exists before after,
    d = (before ++ (k, getitem d k) :: after)%list
    /\ (forall kv, In kv before -> snd kv < getitem d k)
    /\ (forall kv, In kv after -> snd kv <= getitem d k).
Proof.
  intros Hnd Hmax. destruct d as [|kv d]; [discriminate|].
  simpl in Hmax. inversion Hmax as [Hk]; clear Hmax.
  destruct (max_from_spec d kv [] [])
    as (before & after & Heq & Hb & Ha); try (intros x []).
  simpl in Heq.
  set (m := max_from kv d) in *.
  assert (Hget : getitem (kv :: d) (fst m) = snd m).
  { unfold getitem. rewrite (get_in (kv :: d) (fst m) (snd m) Hnd); [reflexivity|].
    rewrite Heq. apply in_or_app. right. left. now destruct m. }
  rewrite Hget. exists before, after. split; [|auto].
  rewrite Heq. now destruct m.
Qed.

Lemma max_key_none (d : dict) : max_key d = None -> d = [].
Proof. destruct d; [reflexivity | discriminate]. Qed.

Lemma filter_all {A : Type} (xs : list A) : filter (fun _ => true) xs = xs.
Proof. induction xs as [|x xs IH]; simpl; congruence. Qed.

(** A loop over a rule table that stores the score of each group, or of
    the groups whose score passes [keep], yields the scored table. *)
Lemma for_items_scores (table : list (string * list string))
  (score : list string -> Z) (keep : Z -> bool)
  (body : dict -> string -> list string -> dict) :
  (forall d k ps,
     body d k ps = if keep (score ps) then setitem d k (score ps) else d) ->
  forall acc : dict,
    NoDup (keys acc ++ keys table) ->
    for_items table acc body
    = (acc ++ filter (fun kv => keep (snd kv)) (scored score table))%list.
Proof.
  intros Hbody. unfold for_items.
  induction table as [|[k ps] table IH]; intros acc Hnd; simpl.
  - now rewrite app_nil_r.
  - rewrite Hbody. simpl in Hnd.
    destruct (keep (score ps)).
    + rewrite setitem_fresh.
      * rewrite IH.
        -- now rewrite <- app_assoc.
        -- unfold keys in *. rewrite map_app, <- app_assoc. exact Hnd.
      * apply NoDup_remove_2 in Hnd. intros Hin. apply Hnd.
        apply in_or_app. now left.
    + apply IH. now apply NoDup_remove_1 in Hnd.
Qed.

Lemma count_if_cons {A : Type} (p : A -> bool) (x : A) (xs : list A) :
  count_if p (x :: xs) = (if p x then 1 else 0) + count_if p xs.
Proof.
  unfold count_if. simpl. destruct (p x); simpl List.length; lia.
Qed.

Lemma count_if_nonneg {A : Type} (p : A -> bool) (xs : list A) :
  0 <= count_if p xs.
Proof. unfold count_if. lia. Qed.

(** An accumulating loop adds up to the total. *)
Lemma for_each_total {A : Type} (f : A -> Z) (xs : list A) (acc : Z) :
  for_each xs acc (fun score x => score + f x) = acc + total f xs.
Proof.
  unfold for_each. revert acc.
  induction xs as [|x xs IH]; intros acc; simpl; [lia|].
  rewrite IH. lia.
Qed.

Lemma keys_scored (score : list string -> Z)
  (table : list (string * list string)) :
  keys (scored score table) = keys table.
Proof.
  unfold keys, scored. rewrite map_map. reflexivity.
Qed.

Lemma first_maximal_in (scores : list (string * Z)) (k : string) :
  first_maximal scores k -> In k (keys scores).
Proof.
  intros (before & v & after & Heq & _). subst scores.
  unfold keys. rewrite map_app. apply in_or_app. right. now left.
Qed.

End DictFacts.

(* ================================================================= *)
(** ** Facts about the detectors *)

Module AnalyzerFacts.
Import PyStr Re PyDict CodeAnalyzer Spec DictFacts.

#[local] Open Scope Z_scope.

(** Distinct keys of a literal table. *)
Ltac distinct_keys :=
  repeat (constructor;
          [ let H := fresh in
            simpl; intros H;
            repeat (destruct H as [H|H]; [discriminate H|]); exact H | ]);
  constructor.

Lemma language_keys_distinct : NoDup (keys language_patterns).
Proof. distinct_keys. Qed.

Lemma code_keys_distinct : NoDup (keys code_patterns).
Proof. distinct_keys. Qed.

(** Every pattern of the rule tables is within the syntax modelled. *)
Lemma tables_compile :
  forall pattern,
    In pattern (concat (map snd language_patterns)
                ++ concat (map snd code_patterns)
                ++ concat (map snd complexity_indicators)
                ++ map (fun keyword => "\b" ++ keyword ++ "\b")%string
                     (concat (map snd functionality_keywords)))%list ->
    compile pattern <> None.
Proof.
  apply Forall_forall.
  repeat (constructor; [discriminate|]). constructor.
Qed.

Lemma occurrences_nonneg (text pattern : string) : 0 <= occurrences text pattern.
Proof.
  unfold occurrences, findall_len. destruct (compile pattern); lia.
Qed.

Lemma total_nonneg {A : Type} (f : A -> Z) (xs : list A) :
  (forall x, 0 <= f x) -> 0 <= total f xs.
Proof.
  intros Hf. induction xs as [|x xs IH]; simpl; [lia|].
  specialize (Hf x). lia.
Qed.

Lemma language_score_nonneg (file_name text : string) (ps : list string) :
  0 <= language_score file_name text ps.
Proof.
  unfold language_score.
  pose proof (count_if_nonneg (matches_name file_name) ps).
  pose proof (count_if_nonneg (matches_text text) ps). lia.
Qed.

(** The inner loop of [detect_language] computes the language score; the
    lower-casing of the file name changes nothing under IGNORECASE. *)
Lemma language_loop (file_name text : string) (ps : list string) (acc : Z) :
  for_each ps acc
    (fun score pattern =>
       let score :=
         if search pattern (lower file_name) IGNORECASE
         then score + 3 else score in
       if search pattern text IGNORECASE_MULTILINE
       then score + 1 else score)
  = acc + language_score file_name text ps.
Proof.
  unfold for_each. revert acc.
  induction ps as [|p ps IH]; intros acc; cbn [fold_left].
  - unfold language_score, count_if. simpl. lia.
  - rewrite IH. unfold language_score. rewrite !count_if_cons.
    unfold matches_name, matches_text.
    rewrite (ReFacts.search_lower p file_name IGNORECASE eq_refl).
    destruct (search p file_name IGNORECASE);
      destruct (search p text IGNORECASE_MULTILINE); lia.
Qed.

Lemma language_scores_eq (file_name text : string) :
  language_scores file_name text
  = scored (language_score file_name text) language_patterns.
Proof.
  unfold language_scores. cbv zeta.
  rewrite (for_items_scores language_patterns
             (language_score file_name text) (fun _ => true)).
  - now rewrite filter_all.
  - intros d k ps. now rewrite language_loop.
  - exact language_keys_distinct.
Qed.

Lemma in_scored (score : list string -> Z)
  (table : list (string * list string)) (k : string) (v : Z) :
  In (k, v) (scored score table) ->
  exists kv, In kv table /\ fst kv = k /\ score (snd kv) = v.
Proof.
  unfold scored. intros H. apply in_map_iff in H.
  destruct H as (kv & Heq & Hin). inversion Heq. eauto.
Qed.

Lemma scored_in (score : list string -> Z)
  (table : list (string * list string)) (kv : string * list string) :
  In kv table -> In (fst kv, score (snd kv)) (scored score table).
Proof.
  intros H. unfold scored.
  apply (in_map (fun kv => (fst kv, score (snd kv)))) in H. exact H.
Qed.

(** The two outcomes of [detect_language]. *)
Lemma detect_language_cases (file_name text : string) :
  let score := language_score file_name text in
  (detect_language file_name text = "unknown"%string
   /\ forall kv, In kv language_patterns -> score (snd kv) = 0)
  \/ (first_maximal (scored score language_patterns)
        (detect_language file_name text)
      /\ exists kv, In kv language_patterns /\ 0 < score (snd kv)).
Proof.
  intros score. unfold detect_language. cbv zeta.
  rewrite language_scores_eq. fold score.
  set (scores := scored score language_patterns).
  assert (Hnd : NoDup (keys scores)).
  { unfold scores. rewrite keys_scored. exact language_keys_distinct. }
  destruct (max_key scores) as [k|] eqn:Hmax.
  - destruct (max_key_spec scores k Hnd Hmax)
      as (before & after & Heq & Hb & Ha).
    set (v := getitem scores k) in *.
    destruct (v >? 0) eqn:Hpos.
    + right. apply Z.gtb_lt in Hpos. split.
      * exists before, v, after. auto.
      * destruct (in_scored score language_patterns k v)
          as (kv & Hin & _ & Hv).
        { fold scores. rewrite Heq. apply in_or_app. right. now left. }
        exists kv. split; [exact Hin | lia].
    + left. split; [reflexivity|].
      assert (Hle : v <= 0).
      { destruct (Z.gtb_spec v 0); [discriminate | lia]. }
      intros kv Hin.
      pose proof (language_score_nonneg file_name text (snd kv)) as H0.
      fold score in H0.
      pose proof (scored_in score language_patterns kv Hin) as Hs.
      fold scores in Hs. rewrite Heq in Hs.
      apply in_app_or in Hs. destruct Hs as [Hs|[Hs|Hs]].
      * specialize (Hb _ Hs). simpl in Hb. lia.
      * inversion Hs. lia.
      * specialize (Ha _ Hs). simpl in Ha. lia.
  - left. split; [reflexivity|].
    apply max_key_none in Hmax. intros kv Hin.
    pose proof (scored_in score language_patterns kv Hin) as Hs.
    fold scores in Hs. rewrite Hmax in Hs. contradiction.
Qed.

Lemma filter_split {A : Type} (p : A -> bool) (xs : list A) :
  forall (l1 : list A) (x : A) (l2 : list A),
    filter p xs = (l1 ++ x :: l2)%list ->
    exists xs1 xs2,
      xs = (xs1 ++ x :: xs2)%list
      /\ filter p xs1 = l1 /\ filter p xs2 = l2 /\ p x = true.
Proof.
  induction xs as [|y xs IH]; intros l1 x l2 H; simpl in H.
  - destruct l1; discriminate.
  - destruct (p y) eqn:Hy.
    + destruct l1 as [|z l1]; simpl in H; inversion H; subst.
      * exists [], xs. auto.
      * destruct (IH l1 x l2 H2) as (xs1 & xs2 & -> & H1 & H3 & Hx).
        exists (z :: xs1), xs2. simpl. rewrite Hy, H1. auto.
    + destruct (IH l1 x l2 H) as (xs1 & xs2 & -> & H1 & H3 & Hx).
      exists (y :: xs1), xs2. simpl. rewrite Hy. auto.
Qed.

Lemma in_filter_or {A : Type} (p : A -> bool) (xs : list A) (x : A) :
  In x xs -> In x (filter p xs) \/ p x = false.
Proof.
  intros H. destruct (p x) eqn:E; [left | now right].
  apply filter_In. auto.
Qed.

Lemma code_type_scores_eq (text : string) :
  code_type_scores text
  = filter (fun kv => snd kv >? 0)
      (scored (code_type_score text) code_patterns).
Proof.
  unfold code_type_scores.
  rewrite (for_items_scores code_patterns (code_type_score text)
             (fun v => v >? 0)).
  - reflexivity.
  - intros d k ps. unfold code_type_score, occurrences.
    now rewrite for_each_total.
  - exact code_keys_distinct.
Qed.

Lemma code_type_score_nonneg (text : string) (ps : list string) :
  0 <= code_type_score text ps.
Proof. apply total_nonneg. apply occurrences_nonneg. Qed.

Lemma NoDup_keys_filter (p : string * Z -> bool) (d : dict) :
  NoDup (keys d) -> NoDup (keys (filter p d)).
Proof.
  induction d as [|kv d IH]; simpl; intros H; [constructor|].
  inversion H as [|? ? Hk Hd]; subst.
  destruct (p kv); simpl; [|auto].
  constructor; [|auto].
  intros Hin. apply Hk. unfold keys in *.
  apply in_map_iff in Hin. destruct Hin as (x & Hx & Hin).
  apply filter_In in Hin. rewrite <- Hx. apply in_map. tauto.
Qed.

(** The two outcomes of [detect_code_type]. *)
Lemma detect_code_type_cases (text : string) :
  let score := code_type_score text in
  (detect_code_type text = "general_code"%string
   /\ forall kv, In kv code_patterns -> score (snd kv) = 0)
  \/ (first_maximal (scored score code_patterns) (detect_code_type text)
      /\ exists kv, In kv code_patterns /\ 0 < score (snd kv)).
Proof.
  intros score. unfold detect_code_type.
  rewrite code_type_scores_eq. fold score.
  set (scores := scored score code_patterns).
  set (positive := fun kv : string * Z => snd kv >? 0).
  assert (Hnd : NoDup (keys (filter positive scores))).
  { apply NoDup_keys_filter. unfold scores. rewrite keys_scored.
    exact code_keys_distinct. }
  destruct (max_key (filter positive scores)) as [k|] eqn:Hmax.
  - right.
    destruct (max_key_spec _ k Hnd Hmax) as (before & after & Heq & Hb & Ha).
    set (v := getitem (filter positive scores) k) in *.
    destruct (filter_split positive scores before (k, v) after Heq)
      as (xs1 & xs2 & Hs & H1 & H2 & Hv).
    unfold positive in Hv. simpl in Hv. apply Z.gtb_lt in Hv.
    assert (Hdrop : forall kv, positive kv = false -> snd kv < v).
    { intros kv Hkv. unfold positive in Hkv.
      destruct (Z.gtb_spec (snd kv) 0); [discriminate | lia]. }
    split.
    + exists xs1, v, xs2. split; [exact Hs|]. split.
      * intros kv Hin.
        destruct (in_filter_or positive xs1 kv Hin) as [Hf|Hf].
        -- rewrite H1 in Hf. auto.
        -- auto.
      * intros kv Hin.
        destruct (in_filter_or positive xs2 kv Hin) as [Hf|Hf].
        -- rewrite H2 in Hf. auto.
        -- specialize (Hdrop kv Hf). lia.
    + destruct (in_scored score code_patterns k v) as (kv & Hin & _ & Hkv).
      { fold scores. rewrite Hs. apply in_or_app. right. now left. }
      exists kv. split; [exact Hin | lia].
  - left. split; [reflexivity|].
    apply max_key_none in Hmax. intros kv Hin.
    pose proof (code_type_score_nonneg text (snd kv)) as H0. fold score in H0.
    pose proof (scored_in score code_patterns kv Hin) as Hs. fold scores in Hs.
    destruct (in_filter_or positive scores _ Hs) as [Hf|Hf].
    + rewrite Hmax in Hf. contradiction.
    + unfold positive in Hf. simpl in Hf.
      destruct (Z.gtb_spec (score (snd kv)) 0); [discriminate | lia].
Qed.

End AnalyzerFacts.

(* ================================================================= *)
(** ** Facts about complexity, confidence and the summary *)

Module ResultFacts.
Import PyStr Re PyDict CodeAnalyzer Spec DictFacts.

#[local] Open Scope Z_scope.

Lemma total_app {A : Type} (f : A -> Z) (xs ys : list A) :
  total f (xs ++ ys) = total f xs + total f ys.
Proof. induction xs as [|x xs IH]; simpl; lia. Qed.

Section TierLoops.

Variable m : string -> Z.

(** The body of the inner loop of [assess_complexity]. *)
Let bump (level : string) (d : dict) (pattern : string) : dict :=
  setitem d level (getitem d level + m pattern).

Lemma inner_loop_same (level : string) (ps : list string) (d : dict) :
  getitem (for_each ps d (bump level)) level = getitem d level + total m ps.
Proof.
  unfold for_each. revert d.
  induction ps as [|p ps IH]; intros d; simpl; [lia|].
  rewrite IH. unfold bump. rewrite getitem_setitem_same. lia.
Qed.

Lemma inner_loop_other (level k : string) (ps : list string) (d : dict) :
  level <> k -> getitem (for_each ps d (bump level)) k = getitem d k.
Proof.
  intros Hne. unfold for_each. revert d.
  induction ps as [|p ps IH]; intros d; simpl; [reflexivity|].
  rewrite IH. unfold bump. now apply getitem_setitem_other.
Qed.

Lemma outer_loop (table : list (string * list string)) (k : string) :
  forall d : dict,
    getitem
      (for_items table d (fun d level ps => for_each ps d (bump level))) k
    = getitem d k + total m (listed table k).
Proof.
  unfold for_items, listed.
  induction table as [|[level ps] table IH]; intros d; simpl; [lia|].
  rewrite IH.
  destruct (String.eqb level k) eqn:E; simpl.
  - apply String.eqb_eq in E. subst level.
    rewrite inner_loop_same, total_app. lia.
  - apply String.eqb_neq in E. now rewrite inner_loop_other.
Qed.

End TierLoops.

(** After the loops of [assess_complexity] the entry of a tier holds the
    occurrences of the patterns of the tier. *)
Lemma complexity_scores_tier (text tier : string) :
  In tier ["high"; "medium"; "low"]%string ->
  getitem (complexity_scores text) tier = tier_count text tier.
Proof.
  intros Hin. unfold complexity_scores.
  rewrite (outer_loop (fun p => findall_len p text IGNORECASE_MULTILINE)).
  unfold tier_count, occurrences.
  destruct Hin as [<-|[<-|[<-|[]]]]; reflexivity.
Qed.

Lemma truthy_not_empty (s : string) :
  truthy s = negb (s =? EmptyString)%string.
Proof. destruct s; reflexivity. Qed.

Lemma code_lines_count (text : string) :
  Z.of_nat (List.length (code_lines text)) = code_line_count text.
Proof.
  unfold code_lines, code_line_count, count_if. do 2 f_equal.
  apply filter_ext. intros line. unfold is_code_line, startswith.
  now rewrite truthy_not_empty.
Qed.

(** The loop of [detect_patterns] keeps, in table order, the names of the
    groups with a pattern found. *)
Lemma detect_patterns_eq (text : string) :
  detect_patterns text
  = keys (filter (fun kv => existsb (matches_text text) (snd kv))
            code_patterns).
Proof.
  unfold detect_patterns, for_items.
  enough (H : forall (table : list (string * list string)) acc,
             fold_left
               (fun acc kv =>
                  if existsb
                       (fun pattern =>
                          search pattern text IGNORECASE_MULTILINE) (snd kv)
                  then (acc ++ [fst kv])%list else acc) table acc
             = (acc ++ keys (filter (fun kv =>
                                       existsb (matches_text text) (snd kv))
                               table))%list)
    by apply (H code_patterns []).
  induction table as [|kv table IH]; intros acc; simpl.
  - now rewrite app_nil_r.
  - rewrite IH. unfold matches_text at 2.
    destruct (existsb _ (snd kv)); simpl; [|reflexivity].
    now rewrite <- app_assoc.
Qed.

Lemma detect_patterns_length (text : string) :
  (List.length (detect_patterns text) <= 13)%nat.
Proof.
  rewrite detect_patterns_eq. unfold keys. rewrite length_map.
  apply (filter_length_le _ code_patterns).
Qed.

(** The confidence of at most thirteen patterns lies in the unit
    interval, by the cases of the five signals. *)
Lemma calculate_confidence_bounds (language code_type : string)
  (patterns : list string) (text : string) :
  (List.length patterns <= 13)%nat ->
  in_unit_interval (calculate_confidence language code_type patterns text).
Proof.
  intros Hlen. unfold calculate_confidence, in_unit_interval. cbv zeta.
  destruct (negb (language =? "unknown")%string);
    destruct (negb (code_type =? "general_code")%string);
    destruct (Z.of_nat (List.length (nonblank_lines text)) >? 5);
    destruct (Z.of_nat (List.length (nonblank_lines text)) >? 20);
    do 14 (destruct patterns as [|? patterns];
           [vm_compute; split; reflexivity|]);
    simpl in Hlen; lia.
Qed.

(** With a known language, a known code type, three patterns or more and
    over twenty lines, the confidence is 1. *)
Lemma calculate_confidence_full (language code_type : string)
  (patterns : list string) (text : string) :
  (List.length patterns <= 13)%nat ->
  language <> "unknown"%string ->
  code_type <> "general_code"%string ->
  (3 <= List.length patterns)%nat ->
  20 < Z.of_nat (List.length (nonblank_lines text)) ->
  calculate_confidence language code_type patterns text = 1%float.
Proof.
  intros Hlen Hl Hc H3 H20. unfold calculate_confidence. cbv zeta.
  apply String.eqb_neq in Hl, Hc. rewrite Hl, Hc.
  assert (H5 : (Z.of_nat (List.length (nonblank_lines text)) >? 5) = true)
    by (apply Z.gtb_lt; lia).
  apply Z.gtb_lt in H20. rewrite H5, H20.
  do 3 (destruct patterns as [|? patterns]; [simpl in H3; lia|]).
  do 11 (destruct patterns as [|? patterns]; [vm_compute; reflexivity|]).
  simpl in Hlen. lia.
Qed.

(** With no signal at all the confidence is 0. *)
Lemma calculate_confidence_none (language code_type : string)
  (patterns : list string) (text : string) :
  language = "unknown"%string ->
  code_type = "general_code"%string ->
  patterns = [] ->
  nonblank_lines text = [] ->
  calculate_confidence language code_type patterns text = 0%float.
Proof.
  intros -> -> -> H. unfold calculate_confidence. rewrite H. reflexivity.
Qed.

Lemma append_assoc (a b c : string) :
  ((a ++ b) ++ c = a ++ (b ++ c))%string.
Proof. induction a as [|x a IH]; simpl; congruence. Qed.

End ResultFacts.

(* ================================================================= *)
(** ** Facts about the endpoints *)

Module ServerFacts.
Import PyStr CodeAnalyzer Server Spec.

#[local] Open Scope Z_scope.

Lemma get_absent (fields : list (string * json)) (key : string)
  (default : json) :
  has_key fields key = false -> get fields key default = default.
Proof.
  unfold has_key. induction fields as [|[k v] fields IH]; simpl;
    [reflexivity|].
  destruct (String.eqb k key); simpl; [discriminate | exact IH].
Qed.

(** Over objects the loop of the batch never leaves early: it appends
    the outcome of each file in turn. *)
Lemma batch_loop_objects (files : list (list (string * json))) :
  forall results,
    batch_loop results (map JObj files)
    = inr (results ++ map file_outcome files)%list.
Proof.
  induction files as [|fields files IH]; intros results; simpl.
  - now rewrite app_nil_r.
  - unfold file_outcome at 1.
    destruct (analyze_fields fields); rewrite IH, <- app_assoc; reflexivity.
Qed.

Lemma analyze_batch_objects (fields : list (string * json))
  (files : list (list (string * json))) :
  get fields "files" JNull = JArr (map JObj files) ->
  analyze_batch (JObj fields)
  = mk_response 200 (BatchResults (map file_outcome files)).
Proof.
  intros Hget. unfold analyze_batch.
  destruct fields as [|kv fields]; [discriminate|].
  cbn [truthy_json negb].
  destruct (has_key (kv :: fields) "files") eqn:Hk.
  - cbn [negb]. rewrite Hget, batch_loop_objects. reflexivity.
  - rewrite (get_absent _ _ _ Hk) in Hget. discriminate.
Qed.

(** The maximum of scores that are not negative is 0 exactly when they
    all are 0. *)
Lemma maximum_zero (scores : list (string * Z)) :
  (forall kv, In kv scores -> 0 <= snd kv) ->
  maximum scores = 0 <-> forall kv, In kv scores -> snd kv = 0.
Proof.
  induction scores as [|kv scores IH]; simpl; intros Hpos.
  - split; [intros _ kv [] | reflexivity].
  - assert (Hm : 0 <= maximum scores).
    { clear. induction scores; simpl; lia. }
    pose proof (Hpos kv (or_introl eq_refl)) as H0.
    destruct IH as [IH1 IH2]; [auto|]. split.
    + intros Hmax x [<-|Hx]; [lia|]. apply IH1; [lia | exact Hx].
    + intros Hall. rewrite IH2 by auto.
      rewrite (Hall kv (or_introl eq_refl)). reflexivity.
Qed.

End ServerFacts.

(* ================================================================= *)
(** ** The properties of the specification *)

Import PyStr Re PyDict CodeAnalyzer Server Spec.
Import DictFacts AnalyzerFacts ResultFacts ServerFacts.

#[local] Open Scope Z_scope.

Lemma unknown_is_no_language : ~ In "unknown"%string (keys language_patterns).
Proof.
  simpl. intros H. repeat (destruct H as [H|H]; [discriminate H|]). exact H.
Qed.

Lemma general_code_is_no_code_type :
  ~ In "general_code"%string (keys code_patterns).
Proof.
  simpl. intros H. repeat (destruct H as [H|H]; [discriminate H|]). exact H.
Qed.

Lemma scored_nonneg (score : list string -> Z)
  (table : list (string * list string)) :
  (forall ps, 0 <= score ps) ->
  forall kv, In kv (scored score table) -> 0 <= snd kv.
Proof.
  intros Hs [k v] Hin. apply in_scored in Hin.
  destruct Hin as (kv & _ & _ & <-). apply Hs.
Qed.

Lemma scored_all_zero (score : list string -> Z)
  (table : list (string * list string)) :
  (forall kv, In kv table -> score (snd kv) = 0)
  <-> (forall kv, In kv (scored score table) -> snd kv = 0).
Proof.
  split.
  - intros H [k v] Hin. apply in_scored in Hin.
    destruct Hin as (kv & Hkv & _ & <-). now apply H.
  - intros H kv Hin. exact (H _ (scored_in score table kv Hin)).
Qed.

(** C1. Language detection: each category scores 3 for every one of its
    patterns that matches the file name and 1 for every one that matches
    in the combined text; the detector answers unknown exactly when the
    greatest score is 0, and otherwise the first category of greatest
    score in the order of the rule table. *)
Theorem detect_language_scoring (file_name text : string) :
  let scores := scored (language_score file_name text) language_patterns in
  let result := detect_language file_name text in
  (result = "unknown"%string <-> maximum scores = 0)
  /\ (result <> "unknown"%string -> first_maximal scores result).
Proof.
  cbv zeta.
  set (scores := scored (language_score file_name text) language_patterns).
  assert (Hzero : maximum scores = 0
                  <-> forall kv, In kv language_patterns ->
                                 language_score file_name text (snd kv) = 0).
  { unfold scores. rewrite maximum_zero.
    - symmetry. apply scored_all_zero.
    - apply scored_nonneg. apply language_score_nonneg. }
  pose proof (detect_language_cases file_name text) as Hcases.
  cbv zeta in Hcases. fold scores in Hcases.
  destruct Hcases as [[Hr Hall]|[Hmax (kv & Hin & Hpos)]].
  - split; [|contradiction]. split; [intros _; now apply Hzero | auto].
  - split; [|auto]. split.
    + intros Hr. exfalso. apply unknown_is_no_language.
      apply first_maximal_in in Hmax. unfold scores in Hmax.
      rewrite keys_scored, Hr in Hmax. exact Hmax.
    + intros Hm. exfalso.
      pose proof (proj1 Hzero Hm kv Hin). lia.
Qed.

(** C2, at the input of the claim: the file name data.xyz with the text
    lorem ipsum is classified as css, not as unknown. The css pattern for
    a class selector, a dot before word characters, matches the extension
    of the file name and earns the css group the score 3. *)
Theorem data_xyz_is_css {D : Type} (full_diff : D)
  (lines_added lines_deleted : Z) :
  matches_name "data.xyz" "\.\w+" = true
  /\ PyDict.get (language_scores "data.xyz" (lines ["lorem ipsum"%string; EmptyString]))
       "css" = Some 3
  /\ language
       (analyze_code_diff "data.xyz" "lorem ipsum" EmptyString full_diff lines_added
          lines_deleted)
     = "css"%string.
Proof. repeat split; vm_compute; reflexivity. Qed.

(** C3. Code-type detection: each category scores the occurrences of its
    patterns in the text; the detector answers general_code exactly when
    the greatest score is 0, and otherwise the first category of greatest
    score in the order of the rule table. Three queries and one route
    score 3 for database_query and 1 for api_endpoint, and the answer is
    database_query. *)
Theorem detect_code_type_scoring (text : string) :
  let scores := scored (code_type_score text) code_patterns in
  let result := detect_code_type text in
  (result = "general_code"%string <-> maximum scores = 0)
  /\ (result <> "general_code"%string -> first_maximal scores result)
  /\ PyDict.get (scored (code_type_score three_selects_one_route)
                   code_patterns) "database_query" = Some 3
  /\ PyDict.get (scored (code_type_score three_selects_one_route)
                   code_patterns) "api_endpoint" = Some 1
  /\ detect_code_type three_selects_one_route = "database_query"%string.
Proof.
  cbv zeta.
  set (scores := scored (code_type_score text) code_patterns).
  assert (Hzero : maximum scores = 0
                  <-> forall kv, In kv code_patterns ->
                                 code_type_score text (snd kv) = 0).
  { unfold scores. rewrite maximum_zero.
    - symmetry. apply scored_all_zero.
    - apply scored_nonneg. apply code_type_score_nonneg. }
  pose proof (detect_code_type_cases text) as Hcases.
  cbv zeta in Hcases. fold scores in Hcases.
  split; [|split; [|repeat split; vm_compute; reflexivity]];
    destruct Hcases as [[Hr Hall]|[Hmax (kv & Hin & Hpos)]].
  - split; [intros _; now apply Hzero | auto].
  - split.
    + intros Hr. exfalso. apply general_code_is_no_code_type.
      apply first_maximal_in in Hmax. unfold scores in Hmax.
      rewrite keys_scored, Hr in Hmax. exact Hmax.
    + intros Hm. exfalso.
      pose proof (proj1 Hzero Hm kv Hin). lia.
  - contradiction.
  - auto.
Qed.

(** C4. Complexity: the weighted score is three times the occurrences of
    the high patterns plus twice those of the medium patterns plus those
    of the low patterns; the code lines are the lines whose trimmed form
    is not empty and opens with none of the four comment markers; and the
    tier is high over 10 points or 100 lines, else medium over 5 points
    or 50 lines, else low. *)
Theorem assess_complexity_tiers (text : string) :
  assess_complexity text
  = if (weighted_score text >? 10) || (code_line_count text >? 100)
    then "high"%string
    else if (weighted_score text >? 5) || (code_line_count text >? 50)
         then "medium"%string
         else "low"%string.
Proof.
  unfold assess_complexity, weighted_score. cbv zeta.
  rewrite !complexity_scores_tier by (simpl; auto).
  rewrite code_lines_count. reflexivity.
Qed.

(** C5. The result invariant: for every input the confidence lies in the
    unit interval, the language is a key of the language table or unknown,
    and the code type is a key of the code-type table or general_code. A
    single space, when the language is unknown, has confidence 0; a known
    language with a known code type, three patterns or more and over
    twenty lines has confidence 1, as the long Python body has. *)
Theorem analysis_result_invariant {D : Type} (file_name added_code
  deleted_code : string) (full_diff : D) (lines_added lines_deleted : Z) :
  let analyze :=
    fun name added =>
      analyze_code_diff name added EmptyString full_diff lines_added
        lines_deleted in
  let r :=
    analyze_code_diff file_name added_code deleted_code full_diff
      lines_added lines_deleted in
  in_unit_interval (confidence r)
  /\ (In (language r) (keys language_patterns)
      \/ language r = "unknown"%string)
  /\ (In (codeType r) (keys code_patterns)
      \/ codeType r = "general_code"%string)
  /\ (language (analyze file_name " "%string) = "unknown"%string ->
      patterns (analyze file_name " "%string) = []
      /\ confidence (analyze file_name " "%string) = 0%float)
  /\ (language r <> "unknown"%string ->
      codeType r <> "general_code"%string ->
      (3 <= List.length (patterns r))%nat ->
      20 < Z.of_nat
             (List.length
                (nonblank_lines
                   (added_code ++ String nl EmptyString ++ deleted_code))) ->
      confidence r = 1%float)
  /\ (language (analyze "orders.py"%string long_python_body)
      = "python"%string
      /\ confidence (analyze "orders.py"%string long_python_body) = 1%float).
Proof.
  cbv zeta. unfold analyze_code_diff. cbn [confidence language codeType patterns].
  set (text := (added_code ++ String nl EmptyString ++ deleted_code)%string).
  split.
  { apply calculate_confidence_bounds. apply detect_patterns_length. }
  split.
  { pose proof (detect_language_cases file_name text) as H. cbv zeta in H.
    destruct H as [[H _]|[H _]]; [now right | left].
    apply first_maximal_in in H. now rewrite keys_scored in H. }
  split.
  { pose proof (detect_code_type_cases text) as H. cbv zeta in H.
    destruct H as [[H _]|[H _]]; [now right | left].
    apply first_maximal_in in H. now rewrite keys_scored in H. }
  split.
  { intros Hunknown. split; [vm_compute; reflexivity|].
    apply calculate_confidence_none;
      [exact Hunknown | vm_compute; reflexivity ..]. }
  split.
  { intros Hl Hc H3 H20. apply calculate_confidence_full; try assumption.
    apply detect_patterns_length. }
  split; vm_compute; reflexivity.
Qed.

(** C6. The summary opens with the change-size clause: the modified form
    when both line counts are positive, the added form when only the lines
    added are, the removed form when only the lines deleted are, and the
    structure form when both are 0; the clauses on the language and the
    functionality follow, and what comes after them does not depend on the
    line counts. Ten lines added to Python code for testing, with no
    pattern and low complexity, give the sentence of the specification. *)
Theorem generate_summary_change_clause (language code_type functionality
  complexity : string) (patterns : list string) :
  (exists rest : string,
     forall a d : Z,
       generate_summary language code_type functionality complexity
         patterns a d
       = (change_clause a d ++ " in " ++ title language ++ " for "
          ++ lower functionality ++ rest)%string)
  /\ (forall a d, 0 < a -> 0 < d ->
        change_clause a d
        = ("Modified code (+" ++ of_int a ++ "/-" ++ of_int d
           ++ " lines)")%string)
  /\ (forall a d, 0 < a -> d <= 0 ->
        change_clause a d = ("Added " ++ of_int a ++ " lines of code")%string)
  /\ (forall a d, a <= 0 -> 0 < d ->
        change_clause a d
        = ("Removed " ++ of_int d ++ " lines of code")%string)
  /\ change_clause 0 0 = "Code structure changes"%string
  /\ generate_summary "python" code_type "Testing" "low" [] 10 0
     = "Added 10 lines of code in Python for testing. Code complexity is low."%string.
Proof.
  assert (Hlt : forall n, 0 < n -> (0 <? n) = true)
    by (intros; now apply Z.ltb_lt).
  assert (Hge : forall n, n <= 0 -> (0 <? n) = false)
    by (intros; now apply Z.ltb_ge).
  split.
  { set (pattern_desc :=
           match patterns with
           | [] => EmptyString
           | _ =>
               let top_patterns := firstn 3 patterns in
               let pattern_desc :=
                 (" with " ++ join ", " (firstn 2 top_patterns))%string in
               if (2 <? List.length top_patterns)%nat
               then (pattern_desc ++ " and "
                     ++ nth 2 top_patterns EmptyString)%string
               else pattern_desc
           end).
    exists ((if truthy pattern_desc then pattern_desc else EmptyString)
            ++ ". Code complexity is " ++ complexity ++ ".")%string.
    intros a d. unfold generate_summary. fold pattern_desc. cbv zeta.
    assert (Hc : (if (a >? 0) && (d >? 0)
                  then ("Modified code (+" ++ of_int a ++ "/-" ++ of_int d
                        ++ " lines)")%string
                  else if a >? 0
                       then ("Added " ++ of_int a ++ " lines of code")%string
                       else if d >? 0
                            then ("Removed " ++ of_int d
                                  ++ " lines of code")%string
                            else "Code structure changes"%string)
                 = change_clause a d).
    { unfold change_clause. rewrite !Z.gtb_ltb.
      destruct (0 <? a); destruct (0 <? d); reflexivity. }
    rewrite Hc.
    destruct (truthy pattern_desc);
      rewrite ?append_assoc; cbn [append]; rewrite ?append_assoc;
      reflexivity. }
  split.
  { intros a d Ha Hd. unfold change_clause. now rewrite (Hlt a), (Hlt d). }
  split.
  { intros a d Ha Hd. unfold change_clause. now rewrite (Hlt a), (Hge d). }
  split.
  { intros a d Ha Hd. unfold change_clause. now rewrite (Hge a), (Hlt d). }
  split; vm_compute; reflexivity.
Qed.

(** C7, the claim refuted: a request with both [addedCode] and
    [deletedCode] filled, so with two bodies that are not empty, is not
    rejected; it is analysed and answered with status 200. *)
Lemma analyze_code_accepts_two_bodies :
  let fields :=
    [("fileName", JStr "app.py"); ("addedCode", JStr "x = 1");
     ("deletedCode", JStr "x = 0")]%string in
  nonempty_bodies fields = 2
  /\ status (analyze_code (JObj fields)) = 200
  /\ exists result, payload (analyze_code (JObj fields)) = Analysis result.
Proof.
  cbv zeta. split; [reflexivity|]. split; [vm_compute; reflexivity|].
  eexists. vm_compute. reflexivity.
Qed.

(** C7 as amended. A request object is rejected with the client error 400
    exactly when its [fileName] is empty or all of [addedCode],
    [deletedCode] and [fullDiff] are empty; the rejection carries an
    error message and no analysis. A request with at least one body that
    is not empty, be it one, two or three, passes the validation and is
    handed to the analysis. *)
Theorem analyze_code_validation (fields : list (string * json)) :
  let present := fun key => truthy_json (get fields key (JStr EmptyString)) in
  let rejected :=
    negb (present "fileName"%string)
    || (negb (present "addedCode"%string)
        && negb (present "deletedCode"%string)
        && negb (present "fullDiff"%string)) in
  (status (analyze_code (JObj fields)) = 400 <-> rejected = true)
  /\ (rejected = true ->
      exists message, payload (analyze_code (JObj fields)) = ErrorMessage message)
  /\ (rejected = false ->
      analyze_code (JObj fields)
      = match analyze_fields fields with
        | inr result => mk_response 200 (Analysis result)
        | inl e => mk_response 500 (InternalServerError e)
        end).
Proof.
  cbv zeta. unfold analyze_code.
  destruct fields as [|kv fields].
  - cbn. repeat split; try discriminate; eauto.
  - cbn [truthy_json negb]. cbv zeta.
    destruct (truthy_json (get (kv :: fields) "fileName" (JStr EmptyString)));
      destruct (truthy_json (get (kv :: fields) "addedCode" (JStr EmptyString)));
      destruct (truthy_json (get (kv :: fields) "deletedCode" (JStr EmptyString)));
      destruct (truthy_json (get (kv :: fields) "fullDiff" (JStr EmptyString)));
      cbn [negb andb orb status payload];
      (split;
       [ first
           [ split; intros _; reflexivity
           | split;
             [ destruct (analyze_fields (kv :: fields)); cbn [status];
               intros H; discriminate H
             | intros H; discriminate H ] ]
       | split;
         [ first [ intros H; discriminate H | intros _; eexists; reflexivity ]
         | first [ intros H; discriminate H | intros _; reflexivity ] ] ]).
Qed.

(** C8. The analysis does not read [fullDiff]: two calls that differ in
    it alone return the same record, and raise the same fault when the
    values the endpoints pass are ill-typed. *)
Theorem full_diff_noninterference {D1 D2 : Type} (full_diff1 : D1)
  (full_diff2 : D2) (file_name added_code deleted_code : string)
  (lines_added lines_deleted : Z) :
  analyze_code_diff file_name added_code deleted_code full_diff1
    lines_added lines_deleted
  = analyze_code_diff file_name added_code deleted_code full_diff2
      lines_added lines_deleted
  /\ forall name added deleted la ld diff1 diff2,
       call_analyze_code_diff name added deleted diff1 la ld
       = call_analyze_code_diff name added deleted diff2 la ld.
Proof.
  split; [reflexivity|].
  intros name added deleted la ld diff1 diff2. unfold call_analyze_code_diff.
  destruct added, deleted, name, la, ld; reflexivity.
Qed.

(** C9. Batch isolation: when every element of the files array is an
    object, the answer has status 200 and holds one element per file, in
    the order of the input; the element of a file is its result with the
    file name, or, when its analysis raises, the file name with the
    error, and the other files keep their results. *)
Theorem analyze_batch_isolation (fields : list (string * json))
  (files : list (list (string * json))) :
  get fields "files" JNull = JArr (map JObj files) ->
  exists results,
    analyze_batch (JObj fields) = mk_response 200 (BatchResults results)
    /\ List.length results = List.length files
    /\ forall i item,
         nth_error files i = Some item ->
         nth_error results i
         = Some (match analyze_fields item with
                 | inr result =>
                     FileResult (get item "fileName" (JStr EmptyString)) result
                 | inl e =>
                     FileError (get item "fileName" (JStr EmptyString)) e
                 end).
Proof.
  intros Hget. exists (map file_outcome files). split; [|split].
  - now apply analyze_batch_objects.
  - apply length_map.
  - intros i item Hi. rewrite nth_error_map, Hi. reflexivity.
Qed.

(** C9 at a batch of three files whose second one has a number for
    [addedCode]: three elements, the second with the error. *)
Lemma analyze_batch_isolation_witness :
  exists r1 r3,
    payload
      (analyze_batch
         (JObj
            [("files"%string,
               JArr
                 [JObj [("fileName", JStr "a.py"); ("addedCode", JStr "x = 1")];
                  JObj [("fileName", JStr "b.py"); ("addedCode", JInt 5)];
                  JObj [("fileName", JStr "c.py"); ("addedCode", JStr "y = 2")]
                 ]%string)]))
    = BatchResults
        [FileResult (JStr "a.py") r1; FileError (JStr "b.py") TypeError;
         FileResult (JStr "c.py") r3].
Proof.
  destruct
    (analyze_batch_isolation
       [("files"%string,
          JArr
            (map JObj
               [[("fileName", JStr "a.py"); ("addedCode", JStr "x = 1")];
                [("fileName", JStr "b.py"); ("addedCode", JInt 5)];
                [("fileName", JStr "c.py"); ("addedCode", JStr "y = 2")]
               ]%string))]
       [[("fileName", JStr "a.py"); ("addedCode", JStr "x = 1")];
        [("fileName", JStr "b.py"); ("addedCode", JInt 5)];
        [("fileName", JStr "c.py"); ("addedCode", JStr "y = 2")]]%string
       eq_refl)
    as (results & Heq & Hlen & Hnth).
  pose proof (Hnth 0%nat _ eq_refl) as H0.
  pose proof (Hnth 1%nat _ eq_refl) as H1.
  pose proof (Hnth 2%nat _ eq_refl) as H2.
  destruct results as [|x1 [|x2 [|x3 [|x4 results]]]]; try discriminate Hlen.
  cbn [nth_error] in H0, H1, H2.
  injection H0 as ->. injection H1 as ->. injection H2 as ->.
  cbn [map] in Heq. rewrite Heq. cbn [payload].
  eexists. eexists. vm_compute. reflexivity.
Defined.

(** C10. The batch endpoint validates no item: an item whose [fileName],
    [addedCode], [deletedCode] and [fullDiff] are all empty gets a result
    made of the fallbacks, not an error, while the single endpoint
    rejects the same object with the client error 400. *)
Theorem batch_skips_validation (fields : list (string * json))
  (lines_added lines_deleted : Z) :
  get fields "fileName" (JStr EmptyString) = JStr EmptyString ->
  get fields "addedCode" (JStr EmptyString) = JStr EmptyString ->
  get fields "deletedCode" (JStr EmptyString) = JStr EmptyString ->
  get fields "fullDiff" (JStr EmptyString) = JStr EmptyString ->
  get fields "linesAdded" (JInt 0) = JInt lines_added ->
  get fields "linesDeleted" (JInt 0) = JInt lines_deleted ->
  (exists result,
     is_fallback_result result
     /\ analyze_batch (JObj [("files"%string, JArr [JObj fields])])
        = mk_response 200
            (BatchResults [FileResult (JStr EmptyString) result]))
  /\ status (analyze_code (JObj fields)) = 400
  /\ exists message,
       payload (analyze_code (JObj fields)) = ErrorMessage message.
Proof.
  intros Hname Hadded Hdeleted Hdiff Hla Hld.
  assert (Hcall : analyze_fields fields
                  = inr (analyze_code_diff EmptyString EmptyString
                           EmptyString (JStr EmptyString) lines_added
                           lines_deleted)).
  { unfold analyze_fields.
    rewrite Hname, Hadded, Hdeleted, Hdiff, Hla, Hld. reflexivity. }
  split.
  - eexists. split.
    2:{ rewrite (analyze_batch_objects
                   [("files"%string, JArr [JObj fields])] [fields] eq_refl).
        cbn [map]. unfold file_outcome. rewrite Hcall, Hname. reflexivity. }
    unfold is_fallback_result. repeat split; vm_compute; reflexivity.
  - unfold analyze_code.
    destruct fields as [|kv fields]; [cbn; eauto|].
    cbn [truthy_json negb]. cbv zeta. rewrite Hname.
    cbn. eauto.
Qed.

(** C10 at an item that spells out its empty fields. *)
Lemma batch_skips_validation_witness :
  let fields :=
    [("fileName", JStr EmptyString); ("addedCode", JStr EmptyString);
     ("deletedCode", JStr EmptyString); ("fullDiff", JStr EmptyString)
    ]%string in
  (exists result,
     is_fallback_result result
     /\ analyze_batch (JObj [("files"%string, JArr [JObj fields])])
        = mk_response 200
            (BatchResults [FileResult (JStr EmptyString) result]))
  /\ status (analyze_code (JObj fields)) = 400
  /\ exists message,
       payload (analyze_code (JObj fields)) = ErrorMessage message.
Proof.
  exact (batch_skips_validation
           [("fileName", JStr EmptyString); ("addedCode", JStr EmptyString);
            ("deletedCode", JStr EmptyString); ("fullDiff", JStr EmptyString)
           ]%string 0 0 eq_refl eq_refl eq_refl eq_refl eq_refl eq_refl).
Defined.

(* ================================================================= *)
(** * Further properties of the analyzer and of the endpoints *)

(** ** The metadata endpoints *)

Module Metadata.
Import CodeAnalyzer.

(** The dictionary of names and their count that [/languages] and
    [/patterns] hand to [jsonify]. *)
Record listing : Type := mk_listing { names : list string; total : Z }.

(** [get_supported_languages] *)
Definition get_supported_languages : listing :=
  mk_listing (map fst language_patterns)
    (Z.of_nat (List.length language_patterns)).

(** [get_code_patterns] *)
Definition get_code_patterns : listing :=
  mk_listing (map fst code_patterns) (Z.of_nat (List.length code_patterns)).

End Metadata.

(** ** Statements *)

Module MoreSpec.
Import PyStr Re CodeAnalyzer Server Spec.

#[local] Open Scope Z_scope.

(** The functionality score of one group: for each keyword, its
    occurrences as a whole word in the text in lower case, plus 3 when
    the file name in lower case contains it. *)
Definition functionality_score (file_name text : string)
  (keywords : list string) : Z :=
  total
    (fun keyword =>
       findall_len ("\b" ++ keyword ++ "\b") (lower text) NOFLAGS
       + (if contains keyword (lower file_name) then 3 else 0))
    keywords.

(** A category name as [analyze_functionality] displays it. *)
Definition display (category : string) : string :=
  title (replace_char "_" " " category).

(** A group of [code_patterns] with a pattern found in the text. *)
Definition group_found (text : string) (group : string * list string) : bool :=
  existsb (matches_text text) (snd group).

(** Two strings equal up to the case of their letters. *)
Definition same_up_to_case (s t : string) : Prop := lower s = lower t.

Definition is_object (v : json) : bool :=
  match v with JObj _ => true | _ => false end.

(** The truth value of a field of a request, empty when absent. *)
Definition present (fields : list (string * json)) (key : string) : bool :=
  truthy_json (get fields key (JStr EmptyString)).

(** The two validations of the single endpoint: no file name, or no body
    at all. *)
Definition rejected (fields : list (string * json)) : bool :=
  negb (present fields "fileName")
  || (negb (present fields "addedCode")
      && negb (present fields "deletedCode")
      && negb (present fields "fullDiff")).

(** A batch request with one file. *)
Definition batch_of_one (fields : list (string * json)) : json :=
  JObj [("files"%string, JArr [JObj fields])].

End MoreSpec.

(** ** Matching: a search succeeds exactly when there is a match to count *)

Module MatchFacts.
Import PyStr Re Spec.

#[local] Open Scope Z_scope.

Lemma count_from_positive (fl : flags) (r : regex) (s : string) :
  forall prev,
    (0 < count_from fl r O prev s)%nat <-> search_from fl r prev s = true.
Proof.
  induction s as [|c s IH]; intros prev; cbn [count_from search_from].
  - destruct (match_here fl false r prev EmptyString) as [[|k]|].
    + destruct (match_here fl true r prev EmptyString) as [[|k]|];
        split; intros _; try reflexivity; lia.
    + split; intros _; [reflexivity | lia].
    + split; intros H; [lia | discriminate H].
  - destruct (match_here fl false r prev (String c s)) as [[|k]|].
    + destruct (match_here fl true r prev (String c s)) as [[|k]|];
        split; intros _; try reflexivity; lia.
    + split; intros _; [reflexivity | lia].
    + apply IH.
Qed.

(** [re.findall] finds a match exactly when [re.search] does. *)
Lemma findall_positive (pattern s : string) (fl : flags) :
  (findall_len pattern s fl >? 0) = search pattern s fl.
Proof.
  unfold findall_len, search.
  destruct (compile pattern) as [r|]; [|reflexivity].
  pose proof (count_from_positive fl r s None) as H.
  destruct (search_from fl r None s).
  - apply Z.gtb_lt. pose proof (proj2 H eq_refl). lia.
  - destruct (Z.gtb_spec (Z.of_nat (count_from fl r O None s)) 0);
      [|reflexivity].
    assert (Hd : false = true) by (apply H; lia). discriminate Hd.
Qed.

(** Counting ignores the case of the text as searching does. *)
Lemma count_from_lower (fl : flags) (r : regex) (s : string) :
  ignorecase fl = true ->
  forall skip prev,
    count_from fl r skip (option_map lower_char prev) (lower s)
    = count_from fl r skip prev s.
Proof.
  intros Hic. induction s as [|c s IH]; intros skip prev.
  - cbn [count_from lower]. destruct skip; [|reflexivity].
    rewrite <- !(ReFacts.match_here_lower fl Hic _ r prev EmptyString).
    reflexivity.
  - cbn [count_from lower].
    change (String (lower_char c) (lower s)) with (lower (String c s)).
    rewrite !(ReFacts.match_here_lower fl Hic).
    pose proof (fun k => IH k (Some c)) as IH'. cbn [option_map] in IH'.
    destruct skip; [|apply IH'].
    destruct (match_here fl false r prev (String c s)) as [[|k]|];
      rewrite ?IH'; try reflexivity.
    destruct (match_here fl true r prev (String c s)) as [[|k]|];
      rewrite ?IH'; reflexivity.
Qed.

Lemma findall_len_lower (pattern s : string) (fl : flags) :
  ignorecase fl = true ->
  findall_len pattern (lower s) fl = findall_len pattern s fl.
Proof.
  intros H. unfold findall_len.
  destruct (compile pattern) as [r|]; [|reflexivity].
  exact (f_equal Z.of_nat (count_from_lower fl r s H O None)).
Qed.

End MatchFacts.

(** ** The detected patterns and the code type *)

Module PatternFacts.
Import PyStr Re PyDict CodeAnalyzer Spec MoreSpec.
Import DictFacts AnalyzerFacts ResultFacts MatchFacts.

#[local] Open Scope Z_scope.

Lemma NoDup_keys_filter_table {B : Type} (p : string * B -> bool)
  (table : list (string * B)) :
  NoDup (keys table) -> NoDup (keys (filter p table)).
Proof.
  induction table as [|kv table IH]; simpl; intros H; [constructor|].
  inversion H as [|? ? Hk Hd]; subst.
  destruct (p kv); simpl; [|auto].
  constructor; [|auto].
  intros Hin. apply Hk. unfold keys in *.
  apply in_map_iff in Hin. destruct Hin as (x & Hx & Hin).
  apply filter_In in Hin. rewrite <- Hx. apply in_map. tauto.
Qed.

Lemma keys_filter_incl {B : Type} (p : string * B -> bool)
  (table : list (string * B)) (k : string) :
  In k (keys (filter p table)) -> In k (keys table).
Proof.
  unfold keys. intros H. apply in_map_iff in H.
  destruct H as (x & Hx & Hin). apply filter_In in Hin.
  rewrite <- Hx. apply in_map. tauto.
Qed.

(** A group has a pattern found exactly when its score is positive. *)
Lemma group_found_positive (text : string) (ps : list string) :
  existsb (matches_text text) ps = (code_type_score text ps >? 0).
Proof.
  unfold code_type_score.
  induction ps as [|p ps IH]; simpl; [reflexivity|].
  rewrite IH. unfold matches_text at 1.
  rewrite <- (findall_positive p text IGNORECASE_MULTILINE).
  fold (occurrences text p).
  pose proof (occurrences_nonneg text p) as Hp.
  pose proof (total_nonneg (occurrences text) ps (occurrences_nonneg text))
    as Hps.
  destruct (Z.gtb_spec (occurrences text p) 0);
    destruct (Z.gtb_spec (total (occurrences text) ps) 0);
    destruct (Z.gtb_spec (occurrences text p + total (occurrences text) ps) 0);
    simpl; try reflexivity; lia.
Qed.

(** [detect_patterns] lists the keys of the dictionary
    [detect_code_type] takes its maximum from. *)
Lemma detect_patterns_scores (text : string) :
  detect_patterns text = keys (code_type_scores text).
Proof.
  rewrite detect_patterns_eq, code_type_scores_eq.
  induction code_patterns as [|kv table IH]; simpl; [reflexivity|].
  rewrite group_found_positive.
  destruct (code_type_score text (snd kv) >? 0); simpl; now rewrite IH.
Qed.

Lemma max_from_in (d : dict) :
  forall best, In (fst (max_from best d)) (fst best :: keys d).
Proof.
  induction d as [|kv d IH]; intros best; simpl; [now left|].
  destruct (snd kv >? snd best).
  - right. exact (IH kv).
  - destruct (IH best) as [H|H]; [now left | right; now right].
Qed.

Lemma max_key_in (d : dict) (k : string) :
  max_key d = Some k -> In k (keys d).
Proof.
  destruct d as [|kv d]; simpl; intros H; [discriminate|].
  inversion H. exact (max_from_in d kv).
Qed.

End PatternFacts.

Import MoreSpec MatchFacts PatternFacts.

(** X1. [detect_patterns] returns the names of the groups of
    [code_patterns] with at least one pattern found in the text, in the
    order of the table and each once. *)
Theorem detect_patterns_groups (text : string) :
  detect_patterns text = keys (filter (group_found text) code_patterns)
  /\ NoDup (detect_patterns text)
  /\ forall name,
       In name (detect_patterns text)
       <-> exists ps pattern,
             In (name, ps) code_patterns /\ In pattern ps
             /\ matches_text text pattern = true.
Proof.
  assert (Heq : detect_patterns text
                = keys (filter (group_found text) code_patterns))
    by apply detect_patterns_eq.
  split; [exact Heq|]. rewrite Heq. split.
  - apply NoDup_keys_filter_table. exact code_keys_distinct.
  - intros name. unfold keys. rewrite in_map_iff. split.
    + intros ([k ps] & Hk & Hin). simpl in Hk. subst k.
      apply filter_In in Hin. destruct Hin as [Hin Hfound].
      unfold group_found in Hfound. apply existsb_exists in Hfound.
      destruct Hfound as (pattern & Hp & Hm). eauto.
    + intros (ps & pattern & Hin & Hp & Hm).
      exists (name, ps). split; [reflexivity|].
      apply filter_In. split; [exact Hin|].
      unfold group_found. apply existsb_exists. eauto.
Qed.

(** The code type is the fallback exactly when no pattern is detected,
    and is a detected pattern otherwise. *)
Lemma code_type_patterns_link (text : string) :
  (detect_code_type text = "general_code"%string
   <-> detect_patterns text = [])
  /\ (detect_code_type text <> "general_code"%string ->
      In (detect_code_type text) (detect_patterns text)).
Proof.
  rewrite detect_patterns_scores. unfold detect_code_type.
  destruct (max_key (code_type_scores text)) as [k|] eqn:Hmax.
  - pose proof (max_key_in _ _ Hmax) as Hin.
    split; [|auto]. split.
    + intros ->. exfalso. apply general_code_is_no_code_type.
      rewrite code_type_scores_eq in Hin.
      apply keys_filter_incl in Hin. now rewrite keys_scored in Hin.
    + intros Hnil. rewrite Hnil in Hin. contradiction.
  - apply max_key_none in Hmax. rewrite Hmax.
    split; [split; reflexivity | intros H; now contradiction H].
Qed.

(** X2. The code type and the patterns agree: the code type is
    general_code exactly when no pattern is detected, and otherwise it
    is one of the detected patterns. *)
Theorem code_type_among_patterns (text : string) :
  (detect_code_type text = "general_code"%string
   <-> detect_patterns text = [])
  /\ (detect_code_type text <> "general_code"%string ->
      In (detect_code_type text) (detect_patterns text)).
Proof. exact (code_type_patterns_link text). Qed.

Lemma total_cons {A : Type} (f : A -> Z) (x : A) (xs : list A) :
  total f (x :: xs) = f x + total f xs.
Proof. reflexivity. Qed.

Lemma functionality_keys_distinct : NoDup (keys functionality_keywords).
Proof. distinct_keys. Qed.

Lemma functionality_score_nonneg (file_name text : string)
  (keywords : list string) :
  0 <= functionality_score file_name text keywords.
Proof.
  apply total_nonneg. intros keyword.
  assert (0 <= findall_len ("\b" ++ keyword ++ "\b") (lower text) NOFLAGS).
  { unfold findall_len. destruct (compile _); lia. }
  destruct (contains keyword (lower file_name)); lia.
Qed.

(** The inner loop of [analyze_functionality] adds up the functionality
    score. *)
Lemma functionality_loop (file_name text : string) (keywords : list string)
  (acc : Z) :
  for_each keywords acc
    (fun score keyword =>
       let score :=
         score + findall_len ("\b" ++ keyword ++ "\b") (lower text) NOFLAGS in
       if contains keyword (lower file_name) then score + 3 else score)
  = acc + functionality_score file_name text keywords.
Proof.
  unfold for_each, functionality_score. revert acc.
  induction keywords as [|k ks IH]; intros acc; cbn [fold_left].
  - unfold total. simpl. lia.
  - rewrite IH, total_cons.
    destruct (contains k (lower file_name)); lia.
Qed.

Lemma display_is_no_fallback (category : string) :
  In category (keys functionality_keywords) ->
  display category <> "General Purpose Code"%string.
Proof.
  intros H. simpl in H.
  repeat (destruct H as [<-|H]; [vm_compute; discriminate|]).
  contradiction.
Qed.

(** X3. Functionality: each category scores, for each of its keywords,
    the whole-word occurrences in the text in lower case plus 3 when the
    file name in lower case contains the keyword. The answer is General
    Purpose Code exactly when the greatest score is 0, and otherwise the
    first category of greatest score in table order, with underscores
    turned into spaces and in title case. The [language] argument plays
    no part. *)
Theorem analyze_functionality_scoring (text file_name language : string) :
  let scores :=
    scored (functionality_score file_name text) functionality_keywords in
  let result := analyze_functionality text file_name language in
  (result = "General Purpose Code"%string <-> maximum scores = 0)
  /\ (result <> "General Purpose Code"%string ->
      exists category,
        first_maximal scores category /\ result = display category).
Proof.
  cbv zeta. unfold analyze_functionality. cbv zeta.
  rewrite (for_items_scores functionality_keywords
             (functionality_score file_name text) (fun _ => true));
    [ | intros d k ps; now rewrite functionality_loop
      | exact functionality_keys_distinct ].
  rewrite filter_all. cbn [app].
  set (scores :=
         scored (functionality_score file_name text) functionality_keywords).
  assert (Hzero : maximum scores = 0
                  <-> forall kv, In kv scores -> snd kv = 0).
  { apply maximum_zero. apply scored_nonneg.
    apply functionality_score_nonneg. }
  assert (Hnd : NoDup (keys scores)).
  { unfold scores. rewrite keys_scored. exact functionality_keys_distinct. }
  destruct (max_key scores) as [k|] eqn:Hmax.
  - destruct (max_key_spec scores k Hnd Hmax)
      as (before & after & Heq & Hb & Ha).
    set (v := getitem scores k) in *.
    assert (Hk : In k (keys functionality_keywords)).
    { unfold scores in Hmax. apply max_key_in in Hmax.
      now rewrite keys_scored in Hmax. }
    assert (Hv0 : 0 <= v).
    { apply (scored_nonneg (functionality_score file_name text)
               functionality_keywords
               (functionality_score_nonneg file_name text) (k, v)).
      fold scores. rewrite Heq. apply in_or_app. right. now left. }
    destruct (v >? 0) eqn:Hpos.
    + apply Z.gtb_lt in Hpos. fold (display k). split.
      * split.
        -- intros Hd. exfalso. exact (display_is_no_fallback k Hk Hd).
        -- intros Hm. exfalso.
           assert (Hin : In (k, v) scores).
           { rewrite Heq. apply in_or_app. right. now left. }
           pose proof (proj1 Hzero Hm _ Hin) as H0. simpl in H0. lia.
      * intros _. exists k. split; [|reflexivity].
        exists before, v, after. auto.
    + assert (Hle : v <= 0).
      { destruct (Z.gtb_spec v 0); [discriminate | lia]. }
      split; [|intros H; now contradiction H].
      split; [|reflexivity]. intros _. apply Hzero.
      intros kv Hin.
      pose proof (scored_nonneg (functionality_score file_name text)
                    functionality_keywords
                    (functionality_score_nonneg file_name text) kv Hin) as H0.
      rewrite Heq in Hin. apply in_app_or in Hin.
      destruct Hin as [Hin|[Hin|Hin]].
      * specialize (Hb _ Hin). lia.
      * subst kv. simpl in *. lia.
      * specialize (Ha _ Hin). lia.
  - apply max_key_none in Hmax.
    split; [|intros H; now contradiction H].
    split; [|reflexivity]. intros _. rewrite Hmax. reflexivity.
Qed.

Lemma change_desc_eq (a d : Z) :
  (if (a >? 0) && (d >? 0)
   then ("Modified code (+" ++ of_int a ++ "/-" ++ of_int d ++ " lines)")%string
   else if a >? 0
        then ("Added " ++ of_int a ++ " lines of code")%string
        else if d >? 0
             then ("Removed " ++ of_int d ++ " lines of code")%string
             else "Code structure changes"%string)
  = change_clause a d.
Proof.
  unfold change_clause. rewrite !Z.gtb_ltb.
  destruct (0 <? a); destruct (0 <? d); reflexivity.
Qed.

(** X4. The summary names at most three patterns: none adds nothing, one
    or two are joined by a comma after the word with, a third follows the
    word and, and patterns past the third never show. The [code_type]
    argument plays no part. *)
Theorem generate_summary_patterns (language code_type code_type'
  functionality complexity : string) (patterns : list string) (a d : Z) :
  let head :=
    (change_clause a d ++ " in " ++ title language ++ " for "
     ++ lower functionality)%string in
  let tail := (". Code complexity is " ++ complexity ++ ".")%string in
  let summary :=
    generate_summary language code_type functionality complexity in
  summary patterns a d
  = generate_summary language code_type' functionality complexity
      (firstn 3 patterns) a d
  /\ summary [] a d = (head ++ tail)%string
  /\ (forall p1, summary [p1] a d = (head ++ " with " ++ p1 ++ tail)%string)
  /\ (forall p1 p2,
        summary [p1; p2] a d
        = (head ++ " with " ++ p1 ++ ", " ++ p2 ++ tail)%string)
  /\ (forall p1 p2 p3 more,
        summary (p1 :: p2 :: p3 :: more) a d
        = (head ++ " with " ++ p1 ++ ", " ++ p2 ++ " and " ++ p3
           ++ tail)%string).
Proof.
  cbv zeta. split.
  { destruct patterns as [|p1 [|p2 [|p3 more]]]; reflexivity. }
  split; [|split; [|split]]; intros; unfold generate_summary; cbv zeta;
    rewrite change_desc_eq;
    cbn [firstn List.length Nat.ltb Nat.leb nth join truthy append];
    repeat (progress (rewrite ?append_assoc; cbn [append]));
    reflexivity.
Qed.

(** ** The case of letters *)

Module CaseFacts.
Import PyStr Re PyDict CodeAnalyzer Spec MoreSpec.
Import ReFacts DictFacts AnalyzerFacts ResultFacts MatchFacts.

#[local] Open Scope Z_scope.

Lemma lower_idempotent (s : string) : lower (lower s) = lower s.
Proof.
  induction s as [|c s IH]; simpl; [reflexivity|].
  now rewrite lower_char_idempotent, IH.
Qed.

Lemma lower_app (s t : string) :
  lower (s ++ t) = (lower s ++ lower t)%string.
Proof. induction s as [|c s IH]; simpl; congruence. Qed.

Lemma truthy_lower (s : string) : truthy (lower s) = truthy s.
Proof. destruct s; reflexivity. Qed.

Lemma split_lines_lower (s : string) :
  split_lines (lower s) = map lower (split_lines s).
Proof.
  induction s as [|c s IH]; cbn [lower split_lines]; [reflexivity|].
  rewrite is_nl_lower_char, IH.
  destruct (is_nl c); [reflexivity|].
  destruct (split_lines s); reflexivity.
Qed.

Lemma lstrip_lower (s : string) : lstrip (lower s) = lower (lstrip s).
Proof.
  induction s as [|c s IH]; cbn [lower lstrip]; [reflexivity|].
  rewrite is_space_lower_char. destruct (is_space c); [exact IH | reflexivity].
Qed.

Lemma rstrip_lower (s : string) : rstrip (lower s) = lower (rstrip s).
Proof.
  induction s as [|c s IH]; cbn [lower rstrip]; [reflexivity|].
  rewrite IH, is_space_lower_char.
  destruct (rstrip s); cbn [lower]; [|reflexivity].
  destruct (is_space c); reflexivity.
Qed.

Lemma strip_lower (s : string) : strip (lower s) = lower (strip s).
Proof. unfold strip. now rewrite lstrip_lower, rstrip_lower. Qed.

Lemma upper_becomes_letter (x : ascii) :
  is_upper x = true -> is_alpha (lower_char x) = true.
Proof.
  destruct x as [[] [] [] [] [] [] [] []]; intros H;
    first [discriminate H | reflexivity].
Qed.

(** A character that is no letter is the lower case of itself only. *)
Lemma lower_char_no_letter (a x : ascii) :
  is_alpha a = false -> lower_char x = a -> x = a.
Proof.
  intros Ha Hx. destruct (is_upper x) eqn:Hu.
  - apply upper_becomes_letter in Hu. rewrite Hx in Hu. congruence.
  - unfold lower_char in Hx. now rewrite Hu in Hx.
Qed.

Lemma lower_char_fixes_no_letter (a : ascii) :
  is_alpha a = false -> lower_char a = a.
Proof.
  intros Ha. unfold lower_char. unfold is_alpha in Ha.
  apply orb_false_iff in Ha. now rewrite (proj1 Ha).
Qed.

(** A string without letters. *)
Fixpoint caseless (m : string) : bool :=
  match m with
  | EmptyString => true
  | String a m' => negb (is_alpha a) && caseless m'
  end.

Lemma prefix_lower (m : string) :
  caseless m = true -> forall s, String.prefix m (lower s) = String.prefix m s.
Proof.
  induction m as [|a m IH]; intros Hm s.
  - destruct s; reflexivity.
  - simpl in Hm. apply andb_true_iff in Hm. destruct Hm as [Ha Hm].
    apply negb_true_iff in Ha.
    destruct s as [|b s]; cbn [lower String.prefix]; [reflexivity|].
    destruct (ascii_dec a (lower_char b)) as [E|N];
      destruct (ascii_dec a b) as [E'|N'].
    + now apply IH.
    + exfalso. apply N'. symmetry.
      apply (lower_char_no_letter a b Ha). now symmetry.
    + exfalso. apply N. subst b.
      symmetry. now apply lower_char_fixes_no_letter.
    + reflexivity.
Qed.

Lemma startswith_lower (s : string) (markers : list string) :
  forallb caseless markers = true ->
  startswith (lower s) markers = startswith s markers.
Proof.
  unfold startswith. induction markers as [|m ms IH]; simpl; intros H;
    [reflexivity|].
  apply andb_true_iff in H. destruct H as [Hm Hms].
  now rewrite prefix_lower, IH.
Qed.

Lemma length_filter_map {A B : Type} (p : B -> bool) (g : A -> B)
  (xs : list A) :
  List.length (filter p (map g xs))
  = List.length (filter (fun x => p (g x)) xs).
Proof.
  induction xs as [|x xs IH]; simpl; [reflexivity|].
  destruct (p (g x)); simpl; now rewrite IH.
Qed.

Lemma code_lines_lower (text : string) :
  List.length (code_lines (lower text)) = List.length (code_lines text).
Proof.
  unfold code_lines. rewrite split_lines_lower, length_filter_map.
  f_equal. apply filter_ext. intros line.
  rewrite strip_lower, truthy_lower, startswith_lower; reflexivity.
Qed.

Lemma nonblank_lines_lower (text : string) :
  List.length (nonblank_lines (lower text))
  = List.length (nonblank_lines text).
Proof.
  unfold nonblank_lines. rewrite split_lines_lower, length_filter_map.
  f_equal. apply filter_ext. intros line.
  now rewrite strip_lower, truthy_lower.
Qed.

Lemma total_ext {A : Type} (f g : A -> Z) (xs : list A) :
  (forall x, f x = g x) -> total f xs = total g xs.
Proof.
  intros H. induction xs as [|x xs IH]; simpl; [reflexivity|].
  now rewrite H, IH.
Qed.

Lemma count_if_ext {A : Type} (p q : A -> bool) (xs : list A) :
  (forall x, p x = q x) -> count_if p xs = count_if q xs.
Proof.
  intros H. unfold count_if. now rewrite (filter_ext p q H).
Qed.

Lemma scored_ext (f g : list string -> Z)
  (table : list (string * list string)) :
  (forall ps, f ps = g ps) -> scored f table = scored g table.
Proof.
  intros H. unfold scored. apply map_ext. intros kv. now rewrite H.
Qed.

Lemma detect_language_lower (file_name text : string) :
  detect_language (lower file_name) (lower text)
  = detect_language file_name text.
Proof.
  unfold detect_language. cbv zeta. rewrite !language_scores_eq.
  rewrite (scored_ext (language_score (lower file_name) (lower text))
             (language_score file_name text)); [reflexivity|].
  intros ps. unfold language_score. f_equal; [f_equal|];
    apply count_if_ext; intros p.
  - unfold matches_name. now apply search_lower.
  - unfold matches_text. now apply search_lower.
Qed.

Lemma code_type_score_lower (text : string) (ps : list string) :
  code_type_score (lower text) ps = code_type_score text ps.
Proof.
  unfold code_type_score. apply total_ext. intros p.
  unfold occurrences. now apply findall_len_lower.
Qed.

Lemma detect_code_type_lower (text : string) :
  detect_code_type (lower text) = detect_code_type text.
Proof.
  unfold detect_code_type. rewrite !code_type_scores_eq.
  now rewrite (scored_ext _ _ code_patterns (code_type_score_lower text)).
Qed.

Lemma detect_patterns_lower (text : string) :
  detect_patterns (lower text) = detect_patterns text.
Proof.
  rewrite !detect_patterns_eq. f_equal. apply filter_ext.
  intros kv. induction (snd kv) as [|p ps IH]; simpl; [reflexivity|].
  rewrite IH. unfold matches_text. now rewrite search_lower.
Qed.

Lemma assess_complexity_lower (text : string) :
  assess_complexity (lower text) = assess_complexity text.
Proof.
  unfold assess_complexity. cbv zeta.
  rewrite !complexity_scores_tier by (simpl; auto).
  rewrite code_lines_lower.
  unfold tier_count.
  rewrite !(total_ext (occurrences (lower text)) (occurrences text));
    try reflexivity;
    intros p; unfold occurrences; now apply findall_len_lower.
Qed.

Lemma analyze_functionality_lower (text file_name language language'
  : string) :
  analyze_functionality (lower text) (lower file_name) language
  = analyze_functionality text file_name language'.
Proof.
  unfold analyze_functionality. cbv zeta.
  now rewrite !lower_idempotent.
Qed.

Lemma calculate_confidence_lower (language code_type : string)
  (patterns : list string) (text : string) :
  calculate_confidence language code_type patterns (lower text)
  = calculate_confidence language code_type patterns text.
Proof.
  unfold calculate_confidence. cbv zeta.
  now rewrite nonblank_lines_lower.
Qed.

(** The analysis of a diff is that of the diff in lower case. *)
Lemma analyze_code_diff_lower {D : Type} (file_name added_code deleted_code
  : string) (full_diff : D) (lines_added lines_deleted : Z) :
  analyze_code_diff (lower file_name) (lower added_code)
    (lower deleted_code) full_diff lines_added lines_deleted
  = analyze_code_diff file_name added_code deleted_code full_diff
      lines_added lines_deleted.
Proof.
  unfold analyze_code_diff. cbv zeta.
  set (text := (added_code ++ String nl EmptyString ++ deleted_code)%string).
  assert (Ht : (lower added_code ++ String nl EmptyString
                ++ lower deleted_code)%string = lower text).
  { unfold text. now rewrite !lower_app. }
  rewrite Ht.
  rewrite detect_language_lower, detect_code_type_lower,
    detect_patterns_lower, assess_complexity_lower,
    calculate_confidence_lower.
  rewrite (analyze_functionality_lower text file_name _
             (detect_language file_name text)).
  reflexivity.
Qed.

End CaseFacts.

Import CaseFacts.

(** X5. The analysis does not see the case of letters: two diffs whose
    file names, added texts and deleted texts are equal up to case get
    the same result, field for field. *)
Theorem analysis_ignores_case {D : Type} (file_name file_name' added_code
  added_code' deleted_code deleted_code' : string) (full_diff : D)
  (lines_added lines_deleted : Z) :
  same_up_to_case file_name file_name' ->
  same_up_to_case added_code added_code' ->
  same_up_to_case deleted_code deleted_code' ->
  analyze_code_diff file_name added_code deleted_code full_diff lines_added
    lines_deleted
  = analyze_code_diff file_name' added_code' deleted_code' full_diff
      lines_added lines_deleted.
Proof.
  unfold same_up_to_case. intros Hf Ha Hd.
  rewrite <- (analyze_code_diff_lower file_name added_code deleted_code).
  rewrite <- (analyze_code_diff_lower file_name' added_code' deleted_code').
  now rewrite Hf, Ha, Hd.
Qed.

(** X5 at a file name and a query written in capitals. *)
Lemma analysis_ignores_case_witness :
  analyze_code_diff "Report.SQL" "SELECT id FROM users" "Delete From users"
    tt 1 1
  = analyze_code_diff "report.sql" "select id from users" "delete from users"
      tt 1 1.
Proof.
  apply (analysis_ignores_case "Report.SQL" "report.sql"
           "SELECT id FROM users" "select id from users"
           "Delete From users" "delete from users" tt 1 1);
    reflexivity.
Defined.

(** A float that compares unequal to 0 is not 0. *)
Ltac float_is_not_zero H :=
  apply (f_equal (fun x => PrimFloat.eqb x 0)) in H;
  vm_compute in H; discriminate H.

(** The confidence of at most thirteen patterns is 0 only without any
    signal. *)
Lemma calculate_confidence_zero_iff (language code_type : string)
  (patterns : list string) (text : string) :
  (List.length patterns <= 13)%nat ->
  calculate_confidence language code_type patterns text = 0%float
  <-> language = "unknown"%string
      /\ code_type = "general_code"%string
      /\ patterns = []
      /\ Z.of_nat (List.length (nonblank_lines text)) <= 5.
Proof.
  intros Hlen. unfold calculate_confidence. cbv zeta.
  set (n := Z.of_nat (List.length (nonblank_lines text))).
  destruct (String.eqb_spec language "unknown") as [El|El];
    destruct (String.eqb_spec code_type "general_code") as [Ec|Ec];
    destruct (Z.gtb_spec n 5) as [H5|H5];
    destruct (Z.gtb_spec n 20) as [H20|H20];
    cbn [negb];
    do 14 (destruct patterns as [|? patterns];
           [ split;
             [ intros H;
               first [ float_is_not_zero H
                     | repeat split; first [assumption | reflexivity] ]
             | intros (H1 & H2 & H3 & H4);
               first [ contradiction | discriminate H3 | lia
                     | vm_compute; reflexivity ] ]
           | ]);
    simpl in Hlen; lia.
Qed.

(** X6. The confidence of a result is 0 exactly when the language is
    unknown, no pattern is detected and the combined text has at most
    five lines that are not blank. *)
Theorem confidence_zero_iff {D : Type} (file_name added_code deleted_code
  : string) (full_diff : D) (lines_added lines_deleted : Z) :
  let r :=
    analyze_code_diff file_name added_code deleted_code full_diff
      lines_added lines_deleted in
  confidence r = 0%float
  <-> language r = "unknown"%string
      /\ patterns r = []
      /\ (List.length
            (nonblank_lines
               (added_code ++ String nl EmptyString ++ deleted_code))
          <= 5)%nat.
Proof.
  cbv zeta. unfold analyze_code_diff.
  cbn [confidence language patterns].
  set (text := (added_code ++ String nl EmptyString ++ deleted_code)%string).
  rewrite (calculate_confidence_zero_iff _ _ _ text
             (detect_patterns_length text)).
  destruct (code_type_patterns_link text) as [Hlink _].
  split.
  - intros (Hl & _ & Hp & Hn). repeat split; [assumption .. | lia].
  - intros (Hl & Hp & Hn). repeat split; [assumption | | assumption | lia].
    now apply Hlink.
Qed.

(** ** The endpoints on requests of every shape *)

Module EndpointFacts.
Import PyStr CodeAnalyzer Server Spec MoreSpec ServerFacts.

#[local] Open Scope Z_scope.


(** A request object is turned down by the validation, or handed to the
    analysis. *)
Lemma analyze_code_cases (fields : list (string * json)) :
  (rejected fields = true
   /\ exists message,
        analyze_code (JObj fields) = mk_response 400 (ErrorMessage message))
  \/ (rejected fields = false
      /\ analyze_code (JObj fields)
         = match analyze_fields fields with
           | inr result => mk_response 200 (Analysis result)
           | inl e => mk_response 500 (InternalServerError e)
           end).
Proof.
  unfold analyze_code, rejected, present.
  destruct fields as [|kv fields].
  - left. cbn. eauto.
  - cbn [truthy_json negb]. cbv zeta.
    destruct (truthy_json (get (kv :: fields) "fileName" (JStr EmptyString)));
      cbn [negb orb]; [|left; eauto].
    destruct (negb (truthy_json
                      (get (kv :: fields) "addedCode" (JStr EmptyString)))
              && negb (truthy_json
                         (get (kv :: fields) "deletedCode" (JStr EmptyString)))
              && negb (truthy_json
                         (get (kv :: fields) "fullDiff" (JStr EmptyString))));
      [left; eauto | right; auto].
Qed.

Lemma truthy_json_str (s : string) :
  truthy_json (JStr s) = true <-> s <> EmptyString.
Proof.
  destruct s; simpl; split; intros H; try reflexivity; try discriminate;
    now contradiction H.
Qed.

(** On an element that is not an object the loop of the batch stops with
    the exception. *)
Lemma batch_loop_non_object (files : list json) :
  forallb is_object files = false ->
  forall results, batch_loop results files = inl AttributeError.
Proof.
  induction files as [|v files IH]; simpl; intros H results;
    [discriminate|].
  destruct v; simpl in H; try reflexivity.
  destruct (analyze_fields fields); now apply IH.
Qed.

End EndpointFacts.

Import EndpointFacts.


(** X8. The batch endpoint turns a request object down with the client
    error 400 exactly when its [files] entry is not an array: without
    the key the message asks for the files array, and with a value of
    another kind, null included, it says that files must be an array. *)
Theorem analyze_batch_rejections (fields : list (string * json)) :
  (status (analyze_batch (JObj fields)) = 400
   <-> forall files, get fields "files" JNull <> JArr files)
  /\ (has_key fields "files" = false ->
      analyze_batch (JObj fields)
      = mk_response 400 (ErrorMessage "files array is required"))
  /\ (has_key fields "files" = true ->
      (forall files, get fields "files" JNull <> JArr files) ->
      analyze_batch (JObj fields)
      = mk_response 400 (ErrorMessage "files must be an array")).
Proof.
  unfold analyze_batch. destruct fields as [|kv fields].
  - cbn. repeat split; try discriminate.
  - cbn [truthy_json negb]. cbv zeta.
    destruct (has_key (kv :: fields) "files") eqn:Hk; cbn [negb].
    + split; [|split; [intros H; discriminate H|]].
      * destruct (get (kv :: fields) "files" JNull) as [|n|s|files|fs];
          try (split; [intros _ files H; discriminate H | reflexivity]).
        split.
        -- intros H. destruct (batch_loop [] files); discriminate H.
        -- intros H. exfalso. now apply (H files).
      * intros _ Hno.
        destruct (get (kv :: fields) "files" JNull) as [|n|s|files|fs];
          try reflexivity.
        exfalso. now apply (Hno files).
    + rewrite (get_absent _ _ _ Hk).
      split; [|split; [reflexivity | intros H; discriminate H]].
      split; [intros _ files H; discriminate H | reflexivity].
Qed.

(** X9. One element of the files array that is not an object fails the
    whole batch: the answer is the server error 500 with the exception,
    and carries no result of any file. *)
Theorem analyze_batch_aborts (fields : list (string * json))
  (files : list json) :
  get fields "files" JNull = JArr files ->
  forallb is_object files = false ->
  analyze_batch (JObj fields)
  = mk_response 500 (InternalServerError AttributeError).
Proof.
  intros Hget Hbad. unfold analyze_batch.
  destruct fields as [|kv fields]; [discriminate|].
  cbn [truthy_json negb].
  destruct (has_key (kv :: fields) "files") eqn:Hk.
  - cbn [negb]. rewrite Hget, (batch_loop_non_object files Hbad).
    reflexivity.
  - rewrite (get_absent _ _ _ Hk) in Hget. discriminate.
Qed.

(** X9 at a batch whose second element is a string. *)
Lemma analyze_batch_aborts_witness :
  analyze_batch
    (JObj
       [("files"%string,
          JArr
            [JObj [("fileName", JStr "a.py"); ("addedCode", JStr "x = 1")];
             JStr "b.py"]%string)])
  = mk_response 500 (InternalServerError AttributeError).
Proof.
  apply (analyze_batch_aborts _
           [JObj [("fileName", JStr "a.py"); ("addedCode", JStr "x = 1")];
            JStr "b.py"]%string);
    reflexivity.
Defined.

(** X10. The two endpoints agree on a request the single endpoint
    answers: sent alone in a batch, the request gets the same result
    with its file name when the single endpoint answers 200, and the
    same exception with its file name when it answers 500. *)
Theorem batch_agrees_with_single (fields : list (string * json)) :
  rejected fields = false ->
  (forall r,
     analyze_code (JObj fields) = mk_response 200 (Analysis r) ->
     analyze_batch (batch_of_one fields)
     = mk_response 200
         (BatchResults
            [FileResult (get fields "fileName" (JStr EmptyString)) r]))
  /\ (forall e,
        analyze_code (JObj fields) = mk_response 500 (InternalServerError e) ->
        analyze_batch (batch_of_one fields)
        = mk_response 200
            (BatchResults
               [FileError (get fields "fileName" (JStr EmptyString)) e])).
Proof.
  intros Hr.
  destruct (analyze_code_cases fields) as [[Hr' _]|[_ Hm]]; [congruence|].
  unfold batch_of_one.
  rewrite (analyze_batch_objects
             [("files"%string, JArr [JObj fields])] [fields] eq_refl).
  cbn [map]. unfold file_outcome. rewrite Hm.
  destruct (analyze_fields fields) as [e'|r'].
  - split; intros x H; inversion H; reflexivity.
  - split; intros x H; inversion H; reflexivity.
Qed.

(** X10 at a request with a file name and added code. *)
Lemma batch_agrees_with_single_witness :
  let fields :=
    [("fileName", JStr "app.py"); ("addedCode", JStr "import os")]%string in
  exists r,
    analyze_code (JObj fields) = mk_response 200 (Analysis r)
    /\ analyze_batch (batch_of_one fields)
       = mk_response 200 (BatchResults [FileResult (JStr "app.py") r]).
Proof.
  cbv zeta. eexists. split.
  - vm_compute. reflexivity.
  - apply (proj1 (batch_agrees_with_single
                    [("fileName", JStr "app.py");
                     ("addedCode", JStr "import os")]%string eq_refl)).
    vm_compute. reflexivity.
Defined.

(** X11. A request that carries its diff in [fullDiff] alone passes the
    validation, and the diff is not analysed: the code type is
    general_code, no pattern is detected, the complexity is low, and the
    result is that of the file name with empty texts, whatever the
    diff. *)
Theorem full_diff_alone_is_not_analysed (fields : list (string * json))
  (name : string) (la ld : Z) :
  get fields "fileName" (JStr EmptyString) = JStr name ->
  name <> EmptyString ->
  get fields "addedCode" (JStr EmptyString) = JStr EmptyString ->
  get fields "deletedCode" (JStr EmptyString) = JStr EmptyString ->
  present fields "fullDiff" = true ->
  get fields "linesAdded" (JInt 0) = JInt la ->
  get fields "linesDeleted" (JInt 0) = JInt ld ->
  let r := analyze_code_diff name EmptyString EmptyString tt la ld in
  analyze_code (JObj fields) = mk_response 200 (Analysis r)
  /\ codeType r = "general_code"%string
  /\ patterns r = []
  /\ complexity r = "low"%string.
Proof.
  intros Hn Hname Ha Hd Hfull Hla Hld. cbv zeta. split.
  - destruct (analyze_code_cases fields) as [[Hr _]|[_ Hm]].
    + exfalso. unfold rejected, present in Hr.
      unfold present in Hfull. rewrite Hn, Hfull in Hr.
      apply truthy_json_str in Hname. rewrite Hname in Hr.
      rewrite andb_false_r in Hr. discriminate Hr.
    + rewrite Hm. unfold analyze_fields.
      rewrite Hn, Ha, Hd, Hla, Hld. reflexivity.
  - repeat split; vm_compute; reflexivity.
Qed.

(** X11 at a request with a diff in [fullDiff] only. *)
Lemma full_diff_alone_is_not_analysed_witness :
  exists r,
    analyze_code
      (JObj [("fileName", JStr "Makefile");
             ("fullDiff", JStr "+SELECT id FROM users")]%string)
    = mk_response 200 (Analysis r)
    /\ codeType r = "general_code"%string
    /\ patterns r = []
    /\ complexity r = "low"%string.
Proof.
  eexists.
  apply (full_diff_alone_is_not_analysed
           [("fileName", JStr "Makefile");
            ("fullDiff", JStr "+SELECT id FROM users")]%string
           "Makefile" 0 0);
    first [reflexivity | discriminate].
Defined.

Lemma count_if_zero {A : Type} (p : A -> bool) (xs : list A) :
  count_if p xs = 0 <-> forall x, In x xs -> p x = false.
Proof.
  induction xs as [|x xs IH]; [split; [intros _ y [] | reflexivity]|].
  rewrite count_if_cons. pose proof (count_if_nonneg p xs) as Hn. split.
  - intros H y [Hy|Hy].
    + subst y. destruct (p x); [lia | reflexivity].
    + apply IH; [destruct (p x); lia | exact Hy].
  - intros H. rewrite (H x (or_introl eq_refl)).
    rewrite (proj2 IH); [reflexivity|]. intros y Hy. apply H. now right.
Qed.

(** X12. The language is unknown exactly when no pattern of any group
    matches the file name or the text. In particular a file name with a
    dot before word characters, which the css pattern for a class
    selector matches, is never unknown, whatever its extension. *)
Theorem unknown_language_iff (file_name text : string) :
  (detect_language file_name text = "unknown"%string
   <-> forall group pattern,
         In group language_patterns -> In pattern (snd group) ->
         matches_name file_name pattern = false
         /\ matches_text text pattern = false)
  /\ (matches_name file_name "\.\w+" = true ->
      detect_language file_name text <> "unknown"%string).
Proof.
  assert (Hscore : forall ps,
             language_score file_name text ps = 0
             <-> forall p, In p ps ->
                           matches_name file_name p = false
                           /\ matches_text text p = false).
  { intros ps. unfold language_score.
    pose proof (count_if_nonneg (matches_name file_name) ps) as H1.
    pose proof (count_if_nonneg (matches_text text) ps) as H2.
    split.
    - intros H p Hp. split; [apply (count_if_zero _ ps) | apply (count_if_zero _ ps)];
        try exact Hp; lia.
    - intros H.
      rewrite (proj2 (count_if_zero (matches_name file_name) ps))
        by (intros p Hp; apply (H p Hp)).
      rewrite (proj2 (count_if_zero (matches_text text) ps))
        by (intros p Hp; apply (H p Hp)).
      reflexivity. }
  assert (Hiff : detect_language file_name text = "unknown"%string
                 <-> forall group pattern,
                       In group language_patterns -> In pattern (snd group) ->
                       matches_name file_name pattern = false
                       /\ matches_text text pattern = false).
  { pose proof (detect_language_cases file_name text) as Hcases.
    cbv zeta in Hcases.
    destruct Hcases as [[Hr Hall]|[Hmax (kv & Hin & Hpos)]].
    - split; [|auto]. intros _ group pattern Hg Hp.
      exact (proj1 (Hscore (snd group)) (Hall group Hg) pattern Hp).
    - split.
      + intros Hr. exfalso. apply unknown_is_no_language.
        apply first_maximal_in in Hmax.
        rewrite keys_scored, Hr in Hmax. exact Hmax.
      + intros Hno. exfalso.
        assert (language_score file_name text (snd kv) = 0)
          by (apply Hscore; intros p Hp; exact (Hno kv p Hin Hp)).
        lia. }
  split; [exact Hiff|].
  intros Hdot Hunknown.
  destruct (proj1 Hiff Hunknown
              ("css"%string,
                ["\.css$"; "\{[^}]*\}"; "@media"; "#\w+"; "\.\w+"]%string)
              "\.\w+"%string) as [Hname _].
  - simpl. do 7 right. now left.
  - simpl. do 4 right. now left.
  - congruence.
Qed.

Lemma analyze_functionality_vocabulary (text file_name language : string) :
  analyze_functionality text file_name language
  = "General Purpose Code"%string
  \/ exists category,
       In category (keys functionality_keywords)
       /\ analyze_functionality text file_name language = display category.
Proof.
  unfold analyze_functionality. cbv zeta.
  rewrite (for_items_scores functionality_keywords
             (functionality_score file_name text) (fun _ => true));
    [ | intros d k ps; now rewrite functionality_loop
      | exact functionality_keys_distinct ].
  rewrite filter_all. cbn [app].
  destruct (max_key _) as [k|] eqn:Hmax; [|now left].
  destruct (_ >? 0); [|now left].
  right. exists k. split; [|reflexivity].
  apply max_key_in in Hmax. now rewrite keys_scored in Hmax.
Qed.

(** X13. Every name a result carries is drawn from a fixed vocabulary
    that the metadata endpoints expose: the language is unknown or
    listed by [/languages]; the code type is general_code or listed by
    [/patterns], and so is every detected pattern; the complexity is
    high, medium or low; the functionality is General Purpose Code or
    the display form of a keyword category. The two fallbacks are not
    listed, and each [total] is the length of its list. *)
Theorem results_are_listed {D : Type} (file_name added_code deleted_code
  : string) (full_diff : D) (lines_added lines_deleted : Z) :
  let r :=
    analyze_code_diff file_name added_code deleted_code full_diff
      lines_added lines_deleted in
  let languages := Metadata.get_supported_languages in
  let code_types := Metadata.get_code_patterns in
  (language r = "unknown"%string
   \/ In (language r) (Metadata.names languages))
  /\ (codeType r = "general_code"%string
      \/ In (codeType r) (Metadata.names code_types))
  /\ (forall p, In p (patterns r) -> In p (Metadata.names code_types))
  /\ In (complexity r) ["high"; "medium"; "low"]%string
  /\ (functionality r = "General Purpose Code"%string
      \/ exists category,
           In category (keys functionality_keywords)
           /\ functionality r = display category)
  /\ ~ In "unknown"%string (Metadata.names languages)
  /\ ~ In "general_code"%string (Metadata.names code_types)
  /\ Metadata.total languages
     = Z.of_nat (List.length (Metadata.names languages))
  /\ Metadata.total code_types
     = Z.of_nat (List.length (Metadata.names code_types)).
Proof.
  cbv zeta. unfold analyze_code_diff.
  cbn [language codeType patterns complexity functionality].
  set (text := (added_code ++ String nl EmptyString ++ deleted_code)%string).
  split.
  { pose proof (detect_language_cases file_name text) as H. cbv zeta in H.
    destruct H as [[H _]|[H _]]; [now left | right].
    apply first_maximal_in in H. now rewrite keys_scored in H. }
  split.
  { pose proof (detect_code_type_cases text) as H. cbv zeta in H.
    destruct H as [[H _]|[H _]]; [now left | right].
    apply first_maximal_in in H. now rewrite keys_scored in H. }
  split.
  { intros p Hp. rewrite detect_patterns_eq in Hp.
    exact (keys_filter_incl _ code_patterns p Hp). }
  split.
  { unfold assess_complexity. cbv zeta.
    destruct (_ || _); [now left|].
    destruct (_ || _); [right; now left | right; right; now left]. }
  split; [apply analyze_functionality_vocabulary|].
  split; [exact unknown_is_no_language|].
  split; [exact general_code_is_no_code_type|].
  split; cbn [Metadata.total Metadata.names Metadata.get_supported_languages
                Metadata.get_code_patterns];
    now rewrite length_map.
Qed.

(** X14. A body that is not an object gets no analysis. The single
    endpoint answers 400 to null, 0, the empty string and the empty
    array, and the server error 500 to every other number, string or
    array. The batch endpoint answers 400 to the same empty bodies, to a
    string without the word files and to an array without the string
    files, and 500 to the other numbers, strings and arrays. *)
Theorem bodies_that_are_not_objects (data : json) :
  is_object data = false ->
  (status (analyze_code data)
   = if truthy_json data then 500 else 400)
  /\ (status (analyze_batch data)
      = if negb (truthy_json data) then 400
        else match data with
             | JStr s => if contains "files" s then 500 else 400
             | JArr items =>
                 if existsb
                      (fun v => match v with
                                | JStr s => (s =? "files")%string
                                | _ => false
                                end) items
                 then 500 else 400
             | _ => 500
             end)
  /\ (forall r, payload (analyze_code data) <> Analysis r)
  /\ (forall results, payload (analyze_batch data) <> BatchResults results).
Proof.
  intros Hobj. destruct data as [|n|s|items|fields]; [ | | | |discriminate].
  - repeat split; intros; discriminate.
  - unfold analyze_code, analyze_batch. cbn [truthy_json].
    destruct (negb (n =? 0)); cbn; repeat split; intros; discriminate.
  - unfold analyze_code, analyze_batch.
    destruct s as [|c s]; [cbn; repeat split; intros; discriminate|].
    cbn [truthy_json truthy negb].
    destruct (contains "files" (String c s));
      cbn [status payload]; repeat split; intros; discriminate.
  - unfold analyze_code, analyze_batch.
    destruct items as [|v items]; [cbn; repeat split; intros; discriminate|].
    cbn [truthy_json negb].
    destruct (existsb _ (v :: items));
      cbn [status payload]; repeat split; intros; discriminate.
Qed.

(** X14 at an array of two numbers. *)
Lemma bodies_that_are_not_objects_witness :
  status (analyze_code (JArr [JInt 1; JInt 2])) = 500
  /\ status (analyze_batch (JArr [JInt 1; JInt 2])) = 400.
Proof.
  destruct (bodies_that_are_not_objects (JArr [JInt 1; JInt 2]) eq_refl)
    as (H1 & H2 & _).
  split; [exact H1 | exact H2].
Defined.
